(** * light_optimizer.py: the lighting pipeline, its nearest-time matcher and
      the schedule narrator, embedded and verified.

    The embedding follows [light_optimizer.py] function by function:
    - Python numbers are [num]: unbounded integers and binary64 floats
      (the Standard Library's [spec_float] at precision 53);
    - exceptions are an [outcome] monad, [try]/[except] is [try_except];
    - a pandas DataFrame is a mutable object behind a reference, a list
      of labelled rows whose cells are looked up by column name; the
      monad [M] threads the store of these objects;
    - the clock, the network and [str] of a float are parameters;
    - the loader works on the frame by position, under the header as the
      file has it, and the formatter of the schedule on strings by code
      point. *)

From Stdlib Require Import ZArith QArith Floats.SpecFloat Strings.Ascii.
From stdpp Require Import base option list strings gmap pretty.

Local Open Scope Z_scope.
#[local] Set Warnings "-register-all".

(** ** Exceptions *)

Inductive exn_class :=
  | KeyError | ValueError | TypeError | IndexError
  | ZeroDivisionError | OverflowError
  | ConnectionError | JSONDecodeError.

(** An instance of a subclass of [Exception]; [exn_msg] is [str(e)]. *)
Record exn := Exn { exn_cls : exn_class; exn_msg : string }.

Inductive outcome (A : Type) :=
  | Ok (a : A)
  | Raise (e : exn).
Arguments Ok {A} a.
Arguments Raise {A} e.

#[global] Instance outcome_ret : MRet outcome := @Ok.
#[global] Instance outcome_bind : MBind outcome := fun A B f m =>
  match m with
  | Ok a => f a
  | Raise e => Raise e
  end.

Definition is_ok {A} (m : outcome A) : Prop := exists a, m = Ok a.

(** [for x in l: ... f(x) ...] collecting the results, stopping at the
    first exception. *)
Fixpoint mapM_outcome {A B} (f : A -> outcome B) (l : list A) : outcome (list B) :=
  match l with
  | [] => Ok []
  | x :: l' =>
      match f x with
      | Raise e => Raise e
      | Ok y =>
          match mapM_outcome f l' with
          | Raise e => Raise e
          | Ok ys => Ok (y :: ys)
          end
      end
  end.

(** ** Python numbers *)

Module Float64.

Definition prec : Z := 53.
Definition emax : Z := 1024.

Definition mul : spec_float -> spec_float -> spec_float := SFmul prec emax.
Definition div : spec_float -> spec_float -> spec_float := SFdiv prec emax.

(** The integer [z] rounded to the nearest float, ties to even. *)
Definition of_Z (z : Z) : spec_float := binary_normalize prec emax z 0 false.

(** The quotient [n / d] of two positive integers rounded once to the
    nearest float, ties to even, with sign [s]. *)
Definition round_ratio (s : bool) (n d : positive) : spec_float :=
  let '(mz, ez, lz) := SFdiv_core_binary prec emax (Zpos n) 0 (Zpos d) 0 in
  binary_round_aux prec emax s mz ez lz.

Definition of_ratio (s : bool) (n : Z) (d : positive) : spec_float :=
  match n with
  | Zpos p => round_ratio s p d
  | _ => S754_zero s
  end.

Definition pow10 (n : N) : positive :=
  match n with
  | N0 => 1%positive
  | Npos p => (10 ^ p)%positive
  end.

(** The decimal literal [digits]e-[scale], as the parser reads it. *)
Definition literal (digits : Z) (scale : N) : spec_float :=
  of_ratio (digits <? 0) (Z.abs digits) (pow10 scale).

Definition is_zero (f : spec_float) : bool :=
  match f with S754_zero _ => true | _ => false end.

Definition is_nan (f : spec_float) : bool :=
  match f with S754_nan => true | _ => false end.

(** The exact value of a finite, non-zero float. *)
Definition finite_Q (s : bool) (m : positive) (e : Z) : Q :=
  match e with
  | Zneg k => Qmake (cond_Zopp s (Zpos m)) (2 ^ k)%positive
  | _ => inject_Z (cond_Zopp s (Zpos m) * 2 ^ e)
  end.

(** Exact comparison of a float with an integer; [None] for NaN. *)
Definition compare_Z (f : spec_float) (z : Z) : option comparison :=
  match f with
  | S754_nan => None
  | S754_infinity s => Some (if s then Lt else Gt)
  | S754_zero _ => Some (0 ?= z)
  | S754_finite s m e => Some (Qcompare (finite_Q s m e) (inject_Z z))
  end.

End Float64.

Inductive num :=
  | PyInt (z : Z)
  | PyFloat (f : spec_float).

(** [float(a)] as the arithmetic operators apply it to an [int] operand. *)
Definition to_float (a : num) : outcome spec_float :=
  match a with
  | PyFloat f => Ok f
  | PyInt z =>
      match Float64.of_Z z with
      | S754_infinity _ => Raise (Exn OverflowError "int too large to convert to float")
      | f => Ok f
      end
  end.

(** [a * b] *)
Definition py_mul (a b : num) : outcome num :=
  match a, b with
  | PyInt x, PyInt y => Ok (PyInt (x * y))
  | _, _ =>
      x ← to_float a;
      y ← to_float b;
      Ok (PyFloat (Float64.mul x y))
  end.

(** [a / b]: true division; two integers are divided exactly and rounded
    once. *)
Definition py_truediv (a b : num) : outcome num :=
  match a, b with
  | PyInt x, PyInt y =>
      if y =? 0 then Raise (Exn ZeroDivisionError "division by zero")
      else
        match Float64.of_ratio (xorb (x <? 0) (y <? 0)) (Z.abs x) (Z.to_pos (Z.abs y)) with
        | S754_infinity _ =>
            Raise (Exn OverflowError "integer division result too large for a float")
        | f => Ok (PyFloat f)
        end
  | _, _ =>
      x ← to_float a;
      y ← to_float b;
      if Float64.is_zero y then Raise (Exn ZeroDivisionError "float division by zero")
      else Ok (PyFloat (Float64.div x y))
  end.

(** [a > b]: numbers of either kind are compared by their exact values;
    every comparison with NaN is false. *)
Definition py_gt (a b : num) : bool :=
  match a, b with
  | PyInt x, PyInt y => y <? x
  | PyFloat f, PyFloat g => SFltb g f
  | PyFloat f, PyInt y =>
      match Float64.compare_Z f y with Some Gt => true | _ => false end
  | PyInt x, PyFloat g =>
      match Float64.compare_Z g x with Some Lt => true | _ => false end
  end.

(** The integer nearest to [n / d], ties to the even one ([0 <= n]). *)
Definition round_half_even (n : Z) (d : positive) : Z :=
  let q := n / Zpos d in
  match 2 * (n mod Zpos d) ?= Zpos d with
  | Lt => q
  | Gt => q + 1
  | Eq => if Z.even q then q else q + 1
  end.

(** [round(x, ndigits)] for a float [x] and [0 <= ndigits <= 323]: the
    exact value of [x] is rounded to [ndigits] decimal places, ties to
    even, and the decimal that results is read back as a float. NaN and
    the infinities round to themselves. *)
Definition round_float (x : spec_float) (ndigits : N) : outcome spec_float :=
  match x with
  | S754_finite s m e =>
      let p10 := Float64.pow10 ndigits in
      let n :=
        match e with
        | Zneg k => round_half_even (Zpos m * Zpos p10) (2 ^ k)%positive
        | _ => Zpos m * 2 ^ e * Zpos p10
        end in
      match Float64.of_ratio s n p10 with
      | S754_infinity _ => Raise (Exn OverflowError "rounded value too large to represent")
      | f => Ok f
      end
  | _ => Ok x
  end.

(** [round(a, ndigits)] with [0 <= ndigits]: an [int] is returned as it
    is. *)
Definition py_round (a : num) (ndigits : N) : outcome num :=
  match a with
  | PyInt z => Ok (PyInt z)
  | PyFloat f => r ← round_float f ndigits; Ok (PyFloat r)
  end.

(** ** Agent functions *)

Definition evaluate_brightness (lux : num) : Z :=
  if py_gt lux (PyInt 500) then 10
  else if py_gt lux (PyInt 300) then 40
  else 80.

Definition calculate_energy_kwh (brightness_percent hours watt : num) : outcome num :=
  a ← py_truediv brightness_percent (PyInt 100);
  b ← py_mul a watt;
  c ← py_mul b hours;
  d ← py_truediv c (PyInt 1000);
  py_round d 4.

Definition default_hours : num := PyInt 1.
Definition default_watt : num := PyInt 40.

Definition calculate_cost (kwh rate : num) : outcome num :=
  c ← py_mul kwh rate;
  py_round c 4.

Definition default_rate : num := PyFloat (Float64.literal 15 2).

(** ** Times of day and datetimes *)

(** [datetime.time(hour, minute)] *)
Record time_of_day := HourMinute { t_hour : Z; t_minute : Z }.

(** A [datetime] at minute resolution: its date as a day number, and its
    time of day. *)
Record datetime := Datetime { dt_date : Z; dt_time : time_of_day }.

(** [datetime.combine(date, t)] *)
Definition datetime_combine (date : Z) (t : time_of_day) : datetime :=
  Datetime date t.

Definition minute_of_day (t : time_of_day) : Z := t_hour t * 60 + t_minute t.

(** [(a - b).total_seconds()]: a whole number of seconds, which the float
    that Python returns holds exactly. *)
Definition total_seconds_between (a b : datetime) : Z :=
  ((dt_date a - dt_date b) * 1440
   + (minute_of_day (dt_time a) - minute_of_day (dt_time b))) * 60.

(** *** Parsing [%H:%M]

    [pd.to_datetime(..., format="%H:%M")] matches the text against the
    regular expression [(?P<H>2[0-3]|[0-1]\d|\d):(?P<M>[0-5]\d|\d)] and
    rejects it when text remains after the match; [int] reads the two
    groups. The classes [[0-3]], [[0-1]] and [[0-5]] hold ASCII digits;
    [\d] is any decimal digit of Unicode, and [int] reads them all. A text
    is held as its UTF-8 bytes. *)

(** A byte [10xxxxxx] of a multi-byte character: its six bits. *)
Definition continuation (s : string) : option (Z * string) :=
  match s with
  | String a r =>
      let n := Z.of_nat (nat_of_ascii a) in
      if (128 <=? n) && (n <=? 191) then Some (n - 128, r) else None
  | EmptyString => None
  end.

(** The first code point of a text, and the text after it. Bytes that
    are not the UTF-8 of a code point, which no [str] has, give [None]. *)
Definition code_point (s : string) : option (Z * string) :=
  match s with
  | EmptyString => None
  | String a r =>
      let n := Z.of_nat (nat_of_ascii a) in
      if n <? 128 then Some (n, r)
      else if (194 <=? n) && (n <=? 223) then
        '(x, r) ← continuation r;
        Some ((n - 192) * 64 + x, r)
      else if (224 <=? n) && (n <=? 239) then
        '(x, r) ← continuation r;
        '(y, r) ← continuation r;
        let c := ((n - 224) * 64 + x) * 64 + y in
        if (2048 <=? c) && negb ((55296 <=? c) && (c <=? 57343)) then Some (c, r) else None
      else if (240 <=? n) && (n <=? 244) then
        '(x, r) ← continuation r;
        '(y, r) ← continuation r;
        '(z, r) ← continuation r;
        let c := (((n - 240) * 64 + x) * 64 + y) * 64 + z in
        if (65536 <=? c) && (c <=? 1114111) then Some (c, r) else None
      else None
  end.

(** The decimal digits of Unicode (category Nd, in the tables of version
    14.0 that CPython 3.11 carries) come in runs of ten, 0 to 9; these are
    the code points of the zeros: the ASCII digits, the Arabic-Indic
    ones, and so on up to the segmented digits. *)
Definition decimal_zeros : list Z :=
  [48; 1632; 1776; 1984; 2406; 2534; 2662; 2790;
   2918; 3046; 3174; 3302; 3430; 3558; 3664; 3792;
   3872; 4160; 4240; 6112; 6160; 6470; 6608; 6784;
   6800; 6992; 7088; 7232; 7248; 42528; 43216; 43264;
   43472; 43504; 43600; 44016; 65296; 66720; 68912; 69734;
   69872; 69942; 70096; 70384; 70736; 70864; 71248; 71360;
   71472; 71904; 72016; 72784; 73040; 73120; 92768; 92864;
   93008; 120782; 120792; 120802; 120812; 120822; 123200; 123632;
   125264; 130032].

(** The value of the decimal digit [c], as [\d] accepts it and [int]
    reads it. *)
Definition digit_of (c : Z) : option Z :=
  z ← List.find (fun z => (z <=? c) && (c <? z + 10)) decimal_zeros;
  Some (c - z).

(** [\d] *)
Definition any_digit (s : string) : option (Z * string) :=
  '(c, r) ← code_point s;
  d ← digit_of c;
  Some (d, r).

(** [[lo-hi]], for the ASCII digits of the values [lo] to [hi] *)
Definition digit_between (lo hi : Z) (s : string) : option (Z * string) :=
  match s with
  | String a r =>
      let d := Z.of_nat (nat_of_ascii a) - 48 in
      if (lo <=? d) && (d <=? hi) then Some (d, r) else None
  | EmptyString => None
  end.

(** [:] *)
Definition colon_then (s : string) : option string :=
  match s with
  | String a r => if Ascii.eqb a ":" then Some r else None
  | EmptyString => None
  end.

(** [2[0-3]:] *)
Definition match_H_20s (s : string) : option (Z * string) :=
  '(x, r) ← digit_between 2 2 s;
  '(y, r) ← digit_between 0 3 r;
  r ← colon_then r;
  Some (10 * x + y, r).

(** [[0-1]\d:] *)
Definition match_H_two (s : string) : option (Z * string) :=
  '(x, r) ← digit_between 0 1 s;
  '(y, r) ← any_digit r;
  r ← colon_then r;
  Some (10 * x + y, r).

(** [\d:] *)
Definition match_H_one (s : string) : option (Z * string) :=
  '(x, r) ← any_digit s;
  r ← colon_then r;
  Some (x, r).

Definition first_match {A} (x y : option A) : option A :=
  match x with
  | Some _ => x
  | None => y
  end.

Definition match_H (s : string) : option (Z * string) :=
  first_match (match_H_20s s) (first_match (match_H_two s) (match_H_one s)).

(** [[0-5]\d|\d]: the first alternative that matches is taken, and the
    text left over with it. *)
Definition match_M (s : string) : option (Z * string) :=
  first_match
    ('(x, r) ← digit_between 0 5 s; '(y, r) ← any_digit r; Some (10 * x + y, r))
    (any_digit s).

Definition strptime_HM (s : string) : option time_of_day :=
  match match_H s with
  | None => None
  | Some (h, r) =>
      match match_M r with
      | Some (m, EmptyString) => Some (HourMinute h m)
      | _ => None
      end
  end.

(** ** Cells, rows and frames *)

Inductive cell :=
  | CStr (s : string)
  | CNum (n : num)
  | CTime (t : time_of_day)
  | CNaT
  | CDatetime (d : datetime)
  (** the float [n.0], for a whole number [n] of seconds *)
  | CSeconds (n : Z).

Definition NaN : cell := CNum (PyFloat S754_nan).

(** [pd.isna] *)
Definition is_null (c : cell) : bool :=
  match c with
  | CNaT => true
  | CNum (PyFloat f) => Float64.is_nan f
  | _ => false
  end.

(** One element of [pd.to_datetime(col, format="%H:%M",
    errors='coerce').dt.time]: a text that parses gives its time, a
    datetime gives its own, and with [errors='coerce'] everything else (a
    missing value, a number or a time, whose [str] has no match) gives
    [NaT]. *)
Definition to_datetime_time (c : cell) : cell :=
  match c with
  | CStr s =>
      match strptime_HM s with
      | Some t => CTime t
      | None => CNaT
      end
  | CDatetime d => CTime (dt_time d)
  | _ => CNaT
  end.

(** Index labels; [pd.read_csv] numbers the rows [0, 1, 2, ...]. *)
Definition label := nat.

Definition Series := list (label * cell).

Record DataFrame := Frame {
  df_columns : list string;
  df_rows : list (label * gmap string cell)
}.

Definition cell_at (r : gmap string cell) (c : string) : cell :=
  default NaN (r !! c).

(** The frame that [pd.read_csv] and [pd.DataFrame] build from rows: the
    rows labelled [0, 1, 2, ...] in their order. *)
Definition table (columns : list string) (rows : list (gmap string cell)) : DataFrame :=
  {| df_columns := columns; df_rows := zip (seq 0 (length rows)) rows |}.

(** [repr] of a column name, the text of a [KeyError]. *)
Definition quoted (c : string) : string := "'" +:+ c +:+ "'".

(** [df[c]] *)
Definition frame_getitem (df : DataFrame) (c : string) : outcome Series :=
  if decide (c ∈ df_columns df)
  then Ok ((fun lr => (lr.1, cell_at lr.2 c)) <$> df_rows df)
  else Raise (Exn KeyError (quoted c)).

Definition add_column (c : string) (columns : list string) : list string :=
  if decide (c ∈ columns) then columns else columns ++ [c].

(** [df[c] = s] for a series [s] over the index of [df]: the column is
    replaced, or added after the others. *)
Definition frame_setitem (df : DataFrame) (c : string) (s : Series) : DataFrame :=
  {| df_columns := add_column c (df_columns df);
     df_rows := zip_with (fun lr v => (lr.1, <[c := v.2]> lr.2)) (df_rows df) s |}.

(** [df.dropna(subset=cs)]: a new frame without the rows that have a null
    in one of the columns [cs]. *)
Definition frame_dropna (df : DataFrame) (cs : list string) : outcome DataFrame :=
  match List.find (fun c => bool_decide (c ∉ df_columns df)) cs with
  | Some c => Raise (Exn KeyError (quoted c))
  | None =>
      Ok {| df_columns := df_columns df;
            df_rows :=
              List.filter
                (fun lr => forallb (fun c => negb (is_null (cell_at lr.2 c))) cs)
                (df_rows df) |}
  end.

(** [s.apply(f)] *)
Definition series_apply (f : cell -> outcome cell) (s : Series) : outcome Series :=
  mapM_outcome (fun lv => v ← f lv.2; Ok (lv.1, v)) s.

Fixpoint first_min (best : label * Z) (l : list (label * Z)) : label * Z :=
  match l with
  | [] => best
  | x :: l' => first_min (if x.2 <? best.2 then x else best) l'
  end.

Definition cell_seconds (c : cell) : outcome Z :=
  match c with
  | CSeconds n => Ok n
  | _ => Raise (Exn TypeError "reduction operation 'argmin' not allowed for this dtype")
  end.

(** [s.idxmin()] on a column of seconds: the label of the first row that
    holds the minimum. *)
Definition idxmin (s : Series) : outcome label :=
  vals ← mapM_outcome (fun lv => n ← cell_seconds lv.2; Ok (lv.1, n)) s;
  match vals with
  | [] => Raise (Exn ValueError "attempt to get argmin of an empty sequence")
  | x :: l => Ok (first_min x l).1
  end.

(** What [df.loc[lbl]] gives: the row, when one row has the label, and
    the frame of the rows that have it, when several do. *)
Inductive loc_result :=
  | LocRow (columns : list string) (r : gmap string cell)
  | LocFrame (sub : DataFrame).

Definition frame_loc (df : DataFrame) (lbl : label) : outcome loc_result :=
  match List.filter (fun lr => bool_decide (lr.1 = lbl)) (df_rows df) with
  | [] => Raise (Exn KeyError (pretty lbl))
  | [lr] => Ok (LocRow (df_columns df) lr.2)
  | rs => Ok (LocFrame {| df_columns := df_columns df; df_rows := rs |})
  end.

Inductive pyval :=
  | VNone
  | VCell (c : cell)
  | VSeries (s : Series).

(** [nearest_row[c]] *)
Definition loc_getitem (r : loc_result) (c : string) : outcome pyval :=
  match r with
  | LocRow columns r =>
      if decide (c ∈ columns) then Ok (VCell (cell_at r c))
      else Raise (Exn KeyError (quoted c))
  | LocFrame sub => s ← frame_getitem sub c; Ok (VSeries s)
  end.

(** ** The heap of frames

    A Python name holds a reference; [df['c'] = ...] changes the object
    that every holder of the reference sees, and [df = df.dropna(...)]
    binds the name to a new object. *)

Definition ref := nat.

Definition M (A : Type) : Type := gmap ref DataFrame -> outcome A * gmap ref DataFrame.

#[global] Instance M_ret : MRet M := fun A a h => (Ok a, h).
#[global] Instance M_bind : MBind M := fun A B f m h =>
  match m h with
  | (Ok a, h') => f a h'
  | (Raise e, h') => (Raise e, h')
  end.

Definition lift {A} (o : outcome A) : M A := fun h => (o, h).

(** [try: body / except Exception as e: handler(e)] *)
Definition try_except {A} (body : M A) (handler : exn -> M A) : M A := fun h =>
  match body h with
  | (Ok a, h') => (Ok a, h')
  | (Raise e, h') => handler e h'
  end.

(** The object behind a reference. Every reference that a program holds
    has one; the other case is there to make the function total. *)
Definition deref (r : ref) : M DataFrame := fun h =>
  match h !! r with
  | Some df => (Ok df, h)
  | None => (Raise (Exn KeyError "dangling reference"), h)
  end.

Definition store (r : ref) (df : DataFrame) : M unit := fun h =>
  (Ok tt, <[r := df]> h).

Definition alloc (df : DataFrame) : M ref := fun h =>
  let r := fresh (dom h) in (Ok r, <[r := df]> h).

Definition df_getitem (r : ref) (c : string) : M Series :=
  df ← deref r; lift (frame_getitem df c).

Definition df_setitem (r : ref) (c : string) (s : Series) : M unit :=
  df ← deref r; store r (frame_setitem df c s).

Definition df_dropna (r : ref) (cs : list string) : M ref :=
  df ← deref r; df' ← lift (frame_dropna df cs); alloc df'.

Definition df_loc (r : ref) (lbl : label) : M loc_result :=
  df ← deref r; lift (frame_loc df lbl).

(** ** The nearest-time matcher *)

(** [lambda t: datetime.combine(now.date(), t)] *)
Definition combine_with_today (now : datetime) (t : cell) : outcome cell :=
  match t with
  | CTime t => Ok (CDatetime (datetime_combine (dt_date now) t))
  | _ => Raise (Exn TypeError "combine() argument 2 must be datetime.time")
  end.

(** [lambda t: abs((now - t).total_seconds())] *)
Definition seconds_from_now (now : datetime) (t : cell) : outcome cell :=
  match t with
  | CDatetime d => Ok (CSeconds (Z.abs (total_seconds_between now d)))
  | _ => Raise (Exn TypeError "unsupported operand type(s) for -")
  end.

(** The body of the [try]. [now] is the clock reading after
    [.replace(second=0, microsecond=0)]. *)
Definition nearest_time_body (now : datetime) (df : ref) : M (pyval * pyval) :=
  times ← df_getitem df "time";
  _ ← df_setitem df "parsed_time" ((fun lv => (lv.1, to_datetime_time lv.2)) <$> times);
  df ← df_dropna df ["parsed_time"];
  parsed ← df_getitem df "parsed_time";
  objs ← lift (series_apply (combine_with_today now) parsed);
  _ ← df_setitem df "datetime_obj" objs;
  objs ← df_getitem df "datetime_obj";
  diffs ← lift (series_apply (seconds_from_now now) objs);
  _ ← df_setitem df "time_diff" diffs;
  diffs ← df_getitem df "time_diff";
  lbl ← lift (idxmin diffs);
  nearest_row ← df_loc df lbl;
  t ← lift (loc_getitem nearest_row "time");
  b ← lift (loc_getitem nearest_row "brightness");
  mret (t, b).

Definition get_nearest_time_brightness (now : datetime) (df : ref) : M (pyval * pyval) :=
  try_except (nearest_time_body now df) (fun _ => mret (VNone, VNone)).

(** ** The enrichment of [main]

    [df['brightness'] = df['lux'].apply(evaluate_brightness)] and the two
    assignments after it. [apply] hands each element to the function as a
    Python number. *)

Definition cell_num (c : cell) : outcome num :=
  match c with
  | CNum n => Ok n
  | CSeconds n => Ok (PyFloat (Float64.of_Z n))
  | _ => Raise (Exn TypeError "unsupported operand type(s)")
  end.

Definition brightness_of (c : cell) : outcome cell :=
  lux ← cell_num c;
  Ok (CNum (PyInt (evaluate_brightness lux))).

Definition energy_of (c : cell) : outcome cell :=
  brightness_percent ← cell_num c;
  kwh ← calculate_energy_kwh brightness_percent default_hours default_watt;
  Ok (CNum kwh).

Definition cost_of (c : cell) : outcome cell :=
  kwh ← cell_num c;
  cost ← calculate_cost kwh default_rate;
  Ok (CNum cost).

Definition enrich (df : ref) : M unit :=
  lux ← df_getitem df "lux";
  brightness ← lift (series_apply brightness_of lux);
  _ ← df_setitem df "brightness" brightness;
  brightness ← df_getitem df "brightness";
  energy ← lift (series_apply energy_of brightness);
  _ ← df_setitem df "energy_kwh" energy;
  energy ← df_getitem df "energy_kwh";
  cost ← lift (series_apply cost_of energy);
  df_setitem df "cost" cost.

(** ** The schedule narrator *)

Inductive json :=
  | JNull
  | JBool (b : bool)
  | JNumber (n : num)
  | JString (s : string)
  | JArray (items : list json)
  | JObject (members : list (string * json)).

(** The value under [k] in the dict that [json.loads] builds from the
    members of an object: the last member named [k]. *)
Fixpoint dict_get (k : string) (members : list (string * json)) : option json :=
  match members with
  | [] => None
  | (k', v) :: rest =>
      match dict_get k rest with
      | Some v' => Some v'
      | None => if String.eqb k k' then Some v else None
      end
  end.

Fixpoint is_prefix (p s : string) : bool :=
  match p, s with
  | EmptyString, _ => true
  | String a p', String b s' => Ascii.eqb a b && is_prefix p' s'
  | String _ _, EmptyString => false
  end.

Fixpoint is_substring (p s : string) : bool :=
  is_prefix p s ||
  match s with
  | EmptyString => false
  | String _ s' => is_substring p s'
  end.

(** [k in v] *)
Definition py_in (k : string) (v : json) : outcome bool :=
  match v with
  | JObject members => Ok (bool_decide (is_Some (dict_get k members)))
  | JArray items =>
      Ok (existsb (fun x => match x with JString s => String.eqb s k | _ => false end) items)
  | JString s => Ok (is_substring k s)
  | _ => Raise (Exn TypeError "argument is not iterable")
  end.

(** [v[k]] for a text [k] *)
Definition json_getitem (v : json) (k : string) : outcome json :=
  match v with
  | JObject members =>
      match dict_get k members with
      | Some x => Ok x
      | None => Raise (Exn KeyError (quoted k))
      end
  | JArray _ => Raise (Exn TypeError "list indices must be integers or slices, not str")
  | JString _ => Raise (Exn TypeError "string indices must be integers, not 'str'")
  | _ => Raise (Exn TypeError "object is not subscriptable")
  end.

(** [v[0]] *)
Definition json_first (v : json) : outcome json :=
  match v with
  | JArray (x :: _) => Ok x
  | JArray [] => Raise (Exn IndexError "list index out of range")
  | JString (String a _) => Ok (JString (String a EmptyString))
  | JString EmptyString => Raise (Exn IndexError "string index out of range")
  | JObject _ => Raise (Exn KeyError "0")
  | _ => Raise (Exn TypeError "object is not subscriptable")
  end.

(** A response of the server: what [response.json()] does with it. *)
Record response := Response { response_json : outcome json }.

(** The arguments of [requests.post]. *)
Record request := Request {
  req_url : string;
  req_authorization : string;
  req_content_type : string;
  req_model : string;
  req_role : string;
  req_content : string;
  req_temperature : spec_float
}.

Definition newline : string := String (ascii_of_nat 10) EmptyString.

Definition prompt_preamble : string :=
  "You are an intelligent office lighting assistant. Based on the data below, " +:+
  "generate a natural-language schedule describing when and why lights change brightness:" +:+
  newline +:+ newline.

Definition prompt_format_hint : string :=
  newline +:+ newline +:+ "Format:" +:+ newline +:+ "Hour: Brightness % - Reason".

(** [try: body / except Exception as e: handler(e)] without a heap *)
Definition try_outcome {A} (body : outcome A) (handler : exn -> outcome A) : outcome A :=
  match body with
  | Ok a => Ok a
  | Raise e => handler e
  end.

Definition numeric_cell (c : cell) : bool :=
  match c with
  | CNum _ | CSeconds _ => true
  | _ => false
  end.

Definition float_cell (c : cell) : bool :=
  match c with
  | CNum (PyFloat _) | CSeconds _ => true
  | _ => false
  end.

(** An integer of an integer column as an element of a float row. *)
Definition as_float64 (c : cell) : cell :=
  match c with
  | CNum (PyInt z) => CNum (PyFloat (Float64.of_Z z))
  | _ => c
  end.

Definition frame_cells (df : DataFrame) : list cell :=
  lr ← df_rows df; (fun c => cell_at lr.2 c) <$> df_columns df.

(** [df.iterrows()]: each row as a series of one dtype. A frame that holds
    an object (a text, a time, [NaT]) hands out its values as they are; in
    a frame of numbers with a float among them the integers become floats. *)
Definition iterrows (df : DataFrame) : list (label * gmap string cell) :=
  if forallb numeric_cell (frame_cells df) && existsb float_cell (frame_cells df)
  then (fun lr : label * gmap string cell => (lr.1, as_float64 <$> lr.2)) <$> df_rows df
  else df_rows df.

(** [row[c]] for a row of [iterrows] *)
Definition row_getitem (columns : list string) (r : gmap string cell) (c : string) : outcome cell :=
  if decide (c ∈ columns) then Ok (cell_at r c) else Raise (Exn KeyError (quoted c)).

Section Narrator.

(** [str] of a float, a time or a datetime in an f-string: CPython's
    shortest float [repr] and the ISO formats. *)
Variable str_other : cell -> string.

(** [requests.post]: it raises, or it returns the server's response. *)
Variable http_post : request -> outcome response.

Definition py_str (c : cell) : string :=
  match c with
  | CStr s => s
  | CNum (PyInt z) => pretty z
  | CNaT => "NaT"
  | _ => str_other c
  end.

Definition prompt_line (columns : list string) (r : gmap string cell) : outcome string :=
  time ← row_getitem columns r "time";
  lux ← row_getitem columns r "lux";
  brightness ← row_getitem columns r "brightness";
  Ok ("Time: " +:+ py_str time +:+ ", Daylight: " +:+ py_str lux +:+
      " lux, Brightness: " +:+ py_str brightness +:+ "%").

Definition full_prompt (dataframe : DataFrame) : outcome string :=
  prompts ← mapM_outcome (fun lr => prompt_line (df_columns dataframe) lr.2)
                         (iterrows dataframe);
  Ok (prompt_preamble +:+ String.concat newline prompts +:+ prompt_format_hint).

Definition groq_request (prompt groq_api_key : string) : request :=
  {| req_url := "https://api.groq.com/openai/v1/chat/completions";
     req_authorization := "Bearer " +:+ groq_api_key;
     req_content_type := "application/json";
     req_model := "llama3-8b-8192";
     req_role := "user";
     req_content := prompt;
     req_temperature := Float64.literal 3 1 |}.

Definition call_groq_scheduler (dataframe : DataFrame) (groq_api_key : string)
  : outcome json :=
  prompt ← full_prompt dataframe;
  response ← http_post (groq_request prompt groq_api_key);
  try_outcome
    (output ← response_json response;
     has_choices ← py_in "choices" output;
     if has_choices : bool then
       choices ← json_getitem output "choices";
       choice ← json_first choices;
       message ← json_getitem choice "message";
       json_getitem message "content"
     else Ok (JString "⚠️ GROQ did not return a valid response."))
    (fun e => Ok (JString ("❌ GROQ request failed: " +:+ exn_msg e))).

End Narrator.

(** ** Python strings by code point

    The schedule that comes back from the server and the names in a CSV
    header are not ASCII in general; [strip], [split], [len] and slices
    count code points. *)

Definition str := list N.

Module Str.

(** An ASCII literal of the source *)
Definition of_string (s : string) : str := N_of_ascii <$> String.list_ascii_of_string s.

(** [c.isspace()], the characters that [strip] removes *)
Definition isspace (c : N) : bool :=
  ((9 <=? c) && (c <=? 13) || (28 <=? c) && (c <=? 32) || (c =? 133) || (c =? 160)
   || (c =? 5760) || (8192 <=? c) && (c <=? 8202) || (c =? 8232) || (c =? 8233)
   || (c =? 8239) || (c =? 8287) || (c =? 12288))%N.

Fixpoint lstrip (s : str) : str :=
  match s with
  | c :: s' => if isspace c then lstrip s' else s
  | [] => []
  end.

Fixpoint rstrip (s : str) : str :=
  match s with
  | [] => []
  | c :: s' =>
      match rstrip s' with
      | [] => if isspace c then [] else [c]
      | r => c :: r
      end
  end.

(** [s.strip()] *)
Definition strip (s : str) : str := rstrip (lstrip s).

(** [s.split(sep)] for a separator of one character: the pieces between
    the separators, at least one. *)
Fixpoint split (sep : N) (s : str) : list str :=
  match s with
  | [] => [[]]
  | c :: s' =>
      if (c =? sep)%N then [] :: split sep s'
      else
        match split sep s' with
        | piece :: pieces => (c :: piece) :: pieces
        | [] => [[c]]
        end
  end.

(** [pieces[0]] for the pieces of a [split], which are never none *)
Definition first_piece (pieces : list str) : str := default [] (head pieces).

Definition ascii_lower (c : N) : N :=
  if ((65 <=? c) && (c <=? 90))%N then (c + 32)%N else c.

Definition is_ascii (s : str) : bool := forallb (fun c => (c <? 128)%N) s.

(** [s.lower()]: on an ASCII text the letters A to Z become a to z; the
    lower case of any other text, which follows the Unicode tables, is
    [lower_other]. *)
Definition lower (lower_other : str -> str) (s : str) : str :=
  if is_ascii s then ascii_lower <$> s else lower_other s.

End Str.

(** ** The schedule formatter of [main] *)

Definition line_feed : N := 10.
Definition colon : N := 58.
Definition dash : N := 45.

(** The f-string of lines 150 to 156 *)
Definition formatted_line (hour_part brightness_part reason_part : str) : str :=
  Str.of_string "<p style='font-family: monospace; font-size: 1rem; margin: 4px 0;'>" ++
  Str.of_string "<span style='color:#2E8B57; font-weight: 700;'>" ++ hour_part ++
  Str.of_string ":</span> " ++
  Str.of_string "<span style='color:#FFA500; font-weight: 600;'>" ++ brightness_part ++
  Str.of_string "</span> - " ++
  Str.of_string "<span style='color:#555;'>" ++ reason_part ++ Str.of_string "</span>" ++
  Str.of_string "</p>".

(** The f-string of line 160 *)
Definition plain_line (line : str) : str :=
  Str.of_string "<p style='color:#d9534f; font-style: italic;'>" ++ line ++
  Str.of_string "</p>".

(** The body of the loop: what is appended for [line]. *)
Definition format_line (line : str) : str :=
  if decide (colon ∈ line /\ dash ∈ line) then
    let hour_part := Str.strip (Str.first_piece (Str.split colon line)) in
    let rest := Str.strip (drop (length hour_part + 1) line) in
    let brightness_part := Str.strip (Str.first_piece (Str.split dash rest)) in
    let reason_part := Str.strip (drop (length brightness_part + 1) rest) in
    formatted_line hour_part brightness_part reason_part
  else plain_line line.

Definition format_schedule (text : str) : str :=
  let lines := Str.split line_feed text in
  let formatted_lines :=
    foldl (fun formatted_lines line => formatted_lines ++ [format_line line]) [] lines in
  concat formatted_lines.

(** ** Loading the readings

    [load_daylight_data] works on the frame as [pd.read_csv] hands it
    over: a header of names, which after [strip] and [lower] may repeat,
    and rows of cells by position. *)

Record RawFrame := Raw {
  raw_columns : list str;
  raw_rows : list (label * list cell)
}.

(** [df.columns = columns], for as many names as there were *)
Definition set_columns (df : RawFrame) (columns : list str) : RawFrame :=
  {| raw_columns := columns; raw_rows := raw_rows df |}.

(** The positions, from [i] on, of the columns named [name]. *)
Fixpoint positions_from (i : nat) (columns : list str) (name : str) : list nat :=
  match columns with
  | [] => []
  | c :: columns' =>
      if decide (c = name) then i :: positions_from (S i) columns' name
      else positions_from (S i) columns' name
  end.

Definition double_quote : string := String (ascii_of_nat 34) EmptyString.

(** [repr] of a list of names *)
Definition repr_names (names : list string) : string :=
  "[" +:+ String.concat ", " (quoted <$> names) +:+ "]".

(** [df[names]] for a list of distinct names: for each name in turn every
    column that bears it, in a new frame over the same index; a name that
    no column bears is a [KeyError]. A row has a cell for every column;
    the default is there to make the lookup total. *)
Definition frame_getitem_list (df : RawFrame) (names : list string) : outcome RawFrame :=
  let missing := filter (fun name => Str.of_string name ∉ raw_columns df) names in
  if decide (missing = []) then
    let taken :=
      name ← names;
      (fun p => (p, name)) <$> positions_from 0 (raw_columns df) (Str.of_string name) in
    Ok {| raw_columns := (fun pn => Str.of_string pn.2) <$> taken;
          raw_rows :=
            (fun lr => (lr.1, (fun pn => default NaN (lr.2 !! pn.1)) <$> taken))
              <$> raw_rows df |}
  else if decide (length missing = length names) then
    Raise (Exn KeyError
             (double_quote +:+ "None of [Index(" +:+ repr_names names +:+
              ", dtype='object')] are in the [columns]" +:+ double_quote))
  else
    Raise (Exn KeyError
             (double_quote +:+ repr_names missing +:+ " not in index" +:+ double_quote)).

Section Loader.

(** [str.lower] of a text that is not ASCII *)
Variable lower_other : str -> str.

(** [df.columns.str.strip().str.lower()] *)
Definition normalized (columns : list str) : list str :=
  Str.lower lower_other <$> (Str.strip <$> columns).

(** The caller's frame after the call, and what the call returns or
    raises. *)
Definition load_daylight_data (df : RawFrame) : RawFrame * outcome RawFrame :=
  let df := set_columns df (normalized (raw_columns df)) in
  (df, frame_getitem_list df ["time"; "lux"]).

End Loader.

(** * Specification

    What the claims speak of, stated apart from the code: the order of a
    number and a threshold, the contract's formulas, the distance of a
    time from now, the prompt, and example tables. *)

(** ** Thresholds *)

(** [lux > k], on the value of [lux] *)
Definition exceeds (lux : num) (k : Z) : Prop :=
  match lux with
  | PyInt z => k < z
  | PyFloat (S754_finite s m e) => (inject_Z k < Float64.finite_Q s m e)%Q
  | PyFloat (S754_zero _) => k < 0
  | PyFloat (S754_infinity s) => s = false
  | PyFloat S754_nan => False
  end.

(** [lux <= k], on the value of [lux] *)
Definition at_most (lux : num) (k : Z) : Prop :=
  match lux with
  | PyInt z => z <= k
  | PyFloat (S754_finite s m e) => (Float64.finite_Q s m e <= inject_Z k)%Q
  | PyFloat (S754_zero _) => 0 <= k
  | PyFloat (S754_infinity s) => s = true
  | PyFloat S754_nan => False
  end.

(** ** Energy and cost *)

(** The contract's formula, [round(brightness_percent/100 * watt * hours /
    1000, 4)] at [watt = 40] and [hours = 1], in Python's arithmetic. *)
Definition spec_energy_kwh (brightness_percent : num) : outcome num :=
  x ← py_truediv brightness_percent (PyInt 100);
  x ← py_mul x (PyInt 40);
  x ← py_mul x (PyInt 1);
  x ← py_truediv x (PyInt 1000);
  py_round x 4.

(** [round(kwh * rate, 4)] at [rate = 0.15] *)
Definition spec_cost (kwh : num) : outcome num :=
  x ← py_mul kwh (PyFloat (Float64.literal 15 2));
  py_round x 4.

(** ** The nearest time *)

(** The time that line 58 parses out of a row, if it parses. *)
Definition parsed_time_of (r : gmap string cell) : option time_of_day :=
  match to_datetime_time (cell_at r "time") with
  | CTime t => Some t
  | _ => None
  end.

(** The rows that survive [dropna], each with its parsed time. *)
Definition candidates (rows : list (label * gmap string cell))
  : list (label * gmap string cell * time_of_day) :=
  omap (fun lr => t ← parsed_time_of lr.2; Some (lr, t)) rows.

(** The distance in seconds between [now] and the time [t] of today. *)
Definition distance (now : datetime) (t : time_of_day) : Z :=
  Z.abs (minute_of_day (dt_time now) - minute_of_day t) * 60.

Definition with_parsed_time (lr : label * gmap string cell) : label * gmap string cell :=
  (lr.1, <["parsed_time" := to_datetime_time (cell_at lr.2 "time")]> lr.2).

(** The row of the local frame for a candidate. *)
Definition local_row (now : datetime) (x : label * gmap string cell * time_of_day)
  : gmap string cell :=
  <["time_diff" := CSeconds (distance now x.2)]>
    (<["datetime_obj" := CDatetime (datetime_combine (dt_date now) x.2)]>
       (<["parsed_time" := CTime x.2]> x.1.2)).

Definition local_columns (columns : list string) : list string :=
  add_column "time_diff" (add_column "datetime_obj" (add_column "parsed_time" columns)).

(** ** The enrichment *)

Definition ok_or {A} (d : A) (o : outcome A) : A :=
  match o with
  | Ok a => a
  | Raise _ => d
  end.

(** The enrichment as a function of the frame alone: its outcome and the
    frame it leaves. *)
Definition enrich_frame (df : DataFrame) : outcome unit * DataFrame :=
  match lux ← frame_getitem df "lux"; series_apply brightness_of lux with
  | Raise e => (Raise e, df)
  | Ok brightness =>
      let df1 := frame_setitem df "brightness" brightness in
      match b ← frame_getitem df1 "brightness"; series_apply energy_of b with
      | Raise e => (Raise e, df1)
      | Ok energy =>
          let df2 := frame_setitem df1 "energy_kwh" energy in
          match e ← frame_getitem df2 "energy_kwh"; series_apply cost_of e with
          | Raise e => (Raise e, df2)
          | Ok cost => (Ok tt, frame_setitem df2 "cost" cost)
          end
      end
  end.

(** The three cells derived from a lux cell. *)
Definition derived_brightness (lux : cell) : cell := ok_or NaN (brightness_of lux).
Definition derived_energy (lux : cell) : cell := ok_or NaN (energy_of (derived_brightness lux)).
Definition derived_cost (lux : cell) : cell := ok_or NaN (cost_of (derived_energy lux)).

Definition derived_row (r : gmap string cell) : gmap string cell :=
  <["cost" := derived_cost (cell_at r "lux")]>
    (<["energy_kwh" := derived_energy (cell_at r "lux")]>
       (<["brightness" := derived_brightness (cell_at r "lux")]> r)).

(** ** The prompt and the network *)

(** The line of the prompt for one reading. *)
Definition spec_line (str_other : cell -> string) (r : gmap string cell) : string :=
  "Time: " +:+ py_str str_other (cell_at r "time") +:+
  ", Daylight: " +:+ py_str str_other (cell_at r "lux") +:+
  " lux, Brightness: " +:+ py_str str_other (cell_at r "brightness") +:+ "%".

(** The lines of all readings joined by newlines, between the preamble
    and the format hint. *)
Definition spec_prompt (str_other : cell -> string) (rows : list (label * gmap string cell))
  : string :=
  prompt_preamble +:+
  String.concat newline ((fun lr => spec_line str_other lr.2) <$> rows) +:+
  prompt_format_hint.

(** A server that answers every request with its prompt as the content of
    the first choice. *)
Definition echo_server (req : request) : outcome response :=
  Ok (Response (Ok (JObject
    [("choices",
      JArray [JObject [("message", JObject [("content", JString (req_content req))])]])]))).

(** A network on which every request fails. *)
Definition network_down (req : request) : outcome response :=
  Raise (Exn ConnectionError "Connection refused").

(** ** Example tables *)

Definition reading (time : string) (lux : Z) : gmap string cell :=
  <["time" := CStr time]> (<["lux" := CNum (PyInt lux)]> ∅).

Definition enriched (time : string) (lux brightness : Z) (kwh cost : spec_float)
  : gmap string cell :=
  <["cost" := CNum (PyFloat cost)]>
    (<["energy_kwh" := CNum (PyFloat kwh)]>
       (<["brightness" := CNum (PyInt brightness)]> (reading time lux))).

Definition enriched_columns : list string :=
  ["time"; "lux"; "brightness"; "energy_kwh"; "cost"].

Definition morning_readings : DataFrame :=
  table ["time"; "lux"] [reading "09:00" 200; reading "13:00" 650].

Definition morning_schedule : DataFrame :=
  table enriched_columns
    [enriched "09:00" 200 80 (Float64.literal 32 3) (Float64.literal 48 4);
     enriched "13:00" 650 10 (Float64.literal 4 3) (Float64.literal 6 4)].

(** Two rows at the same distance from 09:05, after one further away. *)
Definition tied_rows : list (gmap string cell) :=
  [enriched "13:00" 650 10 (Float64.literal 4 3) (Float64.literal 6 4);
   enriched "09:10" 400 40 (Float64.literal 16 3) (Float64.literal 24 4);
   enriched "9:00" 200 80 (Float64.literal 32 3) (Float64.literal 48 4)].

Definition tied_schedule : DataFrame := table enriched_columns tied_rows.



(** A table of numbers only: the times as numbers, and a float column. *)
Definition numeric_schedule : DataFrame :=
  table ["time"; "lux"; "brightness"; "energy_kwh"]
    [<["time" := CNum (PyInt 900)]>
       (<["lux" := CNum (PyInt 200)]>
          (<["brightness" := CNum (PyInt 80)]>
             (<["energy_kwh" := CNum (PyFloat (Float64.literal 32 3))]> ∅)))].

(** 09:05 on some day *)
Definition five_past_nine : datetime := Datetime 739000 (HourMinute 9 5).

(** [str] of the cells that the examples do not contain *)
Definition no_other : cell -> string := fun _ => "?".


(** The raw readings at another address, beside another table. *)
Definition readings_elsewhere : gmap ref DataFrame :=
  <[5%nat := morning_readings]> (<[0%nat := tied_schedule]> ∅).

(** ** Further examples *)



(** The columns of an enriched frame. *)
Definition enriched_columns_of (columns : list string) : list string :=
  add_column "cost" (add_column "energy_kwh" (add_column "brightness" columns)).

(** The brightness, energy and cost that a row can get. *)
Definition brightness_energy_cost : list (cell * cell * cell) :=
  [(CNum (PyInt 80), CNum (PyFloat (Float64.literal 32 3)), CNum (PyFloat (Float64.literal 48 4)));
   (CNum (PyInt 40), CNum (PyFloat (Float64.literal 16 3)), CNum (PyFloat (Float64.literal 24 4)));
   (CNum (PyInt 10), CNum (PyFloat (Float64.literal 4 3)), CNum (PyFloat (Float64.literal 6 4)))].

(** [f"{n:02d}"] for [0 <= n < 100], the digits of [strftime("%H:%M")] *)
Definition two_digits (n : Z) : string :=
  if n <? 10 then "0" +:+ pretty n else pretty n.

(** [s] parses to the time [h:m]. *)
Definition parses_to (s : string) (h m : Z) : bool :=
  match strptime_HM s with
  | Some t => (t_hour t =? h) && (t_minute t =? m)
  | None => false
  end.

(** A server that answers every request with the JSON value [v]. *)
Definition answers (v : json) (req : request) : outcome response :=
  Ok (Response (Ok v)).

(** A table without a [lux] column. *)
Definition times_only : DataFrame :=
  table ["time"; "brightness"]
    [<["time" := CStr "09:00"]> (<["brightness" := CNum (PyInt 80)]> ∅)].

(** An upload with a third column and a header in its own spelling. *)
Definition csv_upload : RawFrame :=
  {| raw_columns := [Str.of_string " Lux"; Str.of_string "Room"; Str.of_string "TIME "];
     raw_rows := [(0%nat, [CNum (PyInt 200); CStr "A1"; CStr "09:00"]);
                  (1%nat, [CNum (PyInt 650); CStr "A1"; CStr "13:00"])] |}.

(** What the loader returns for it. *)
Definition csv_loaded : RawFrame :=
  {| raw_columns := [Str.of_string "time"; Str.of_string "lux"];
     raw_rows := [(0%nat, [CStr "09:00"; CNum (PyInt 200)]);
                  (1%nat, [CStr "13:00"; CNum (PyInt 650)])] |}.

(** A reading timed 9:5 in Arabic-Indic digits. *)
Definition arabic_indic_readings : DataFrame :=
  table ["time"; "lux"] [reading "٩:٥" 200].

Definition arabic_indic_schedule : DataFrame :=
  table enriched_columns
    [enriched "٩:٥" 200 80 (Float64.literal 32 3) (Float64.literal 48 4)].

(** [str.lower] is not asked about a text beyond ASCII in the examples. *)
Definition lower_unused : str -> str := fun s => s.

(** * Verification *)

(** ** The float model against known binary64 values *)

Example literal_one_tenth :
  Float64.literal 1 1 = S754_finite false 7205759403792794 (-56).
Proof. reflexivity. Qed.

Example literal_default_rate :
  default_rate = PyFloat (S754_finite false 5404319552844595 (-55)).
Proof. reflexivity. Qed.

Example of_Z_rounds_to_even : Float64.of_Z (2 ^ 53 + 1) = Float64.of_Z (2 ^ 53).
Proof. reflexivity. Qed.

(** [round(0.03125, 4) == 0.0312] and [round(2.675, 2) == 2.67] *)
Example round_tie_to_even :
  py_round (PyFloat (Float64.literal 3125 5)) 4 = Ok (PyFloat (Float64.literal 312 4)).
Proof. reflexivity. Qed.

Example round_below_half :
  py_round (PyFloat (Float64.literal 2675 3)) 2 = Ok (PyFloat (Float64.literal 267 2)).
Proof. reflexivity. Qed.

(** ** Brightness evaluator *)

Lemma py_gt_exceeds (lux : num) (k : Z) : py_gt lux (PyInt k) = true <-> exceeds lux k.
Proof.
  destruct lux as [z | [s | s | | s m e]]; simpl.
  - apply Z.ltb_lt.
  - destruct k; simpl; split; intros; try lia; try discriminate; reflexivity.
  - destruct s; split; congruence.
  - split; [discriminate | tauto].
  - rewrite Qlt_alt, <- (Qcompare_antisym (Float64.finite_Q s m e) (inject_Z k)).
    destruct (Float64.finite_Q s m e ?= inject_Z k)%Q; simpl; split;
      intros; try discriminate; reflexivity.
Qed.

Lemma py_gt_at_most (lux : num) (k : Z) : at_most lux k -> py_gt lux (PyInt k) = false.
Proof.
  destruct lux as [z | [s | s | | s m e]]; simpl.
  - intros. apply Z.ltb_ge. lia.
  - destruct k; simpl; intros; try lia; reflexivity.
  - intros ->. reflexivity.
  - tauto.
  - rewrite Qle_alt.
    destruct (Float64.finite_Q s m e ?= inject_Z k)%Q; congruence.
Qed.

Lemma at_most_mono (lux : num) (k k' : Z) : k <= k' -> at_most lux k -> at_most lux k'.
Proof.
  intros Hk.
  destruct lux as [z | [s | s | | s m e]]; simpl; try lia; try tauto.
  intros H. eapply Qle_trans; [exact H|]. rewrite <- Zle_Qle. exact Hk.
Qed.

Lemma evaluate_brightness_cases (lux : num) :
  evaluate_brightness lux = 10 \/ evaluate_brightness lux = 40 \/
  evaluate_brightness lux = 80.
Proof.
  unfold evaluate_brightness.
  destruct (py_gt lux (PyInt 500)); [tauto|].
  destruct (py_gt lux (PyInt 300)); tauto.
Qed.

(** Numbers of the same value, an [int] and a [float] among them, get the
    same brightness. *)
Lemma evaluate_brightness_by_value (a b : num) :
  (forall k, exceeds a k <-> exceeds b k) ->
  evaluate_brightness a = evaluate_brightness b.
Proof.
  intros Hab.
  assert (Hgt : forall k, py_gt a (PyInt k) = py_gt b (PyInt k)).
  { intros k. pose proof (py_gt_exceeds a k) as Ha. pose proof (py_gt_exceeds b k) as Hb.
    specialize (Hab k).
    destruct (py_gt a (PyInt k)), (py_gt b (PyInt k)); try reflexivity.
    - symmetry. apply Hb, Hab, Ha. reflexivity.
    - apply Ha, Hab, Hb. reflexivity. }
  unfold evaluate_brightness. rewrite !Hgt. reflexivity.
Qed.

(** 400 and 400.0 have the same value. *)
Example same_value_int_float (k : Z) :
  exceeds (PyInt 400) k <-> exceeds (PyFloat (Float64.of_Z 400)) k.
Proof.
  change (Float64.of_Z 400) with (S754_finite false 7036874417766400 (-44)).
  unfold exceeds, Float64.finite_Q, Qlt. simpl. lia.
Qed.

(** C2: [evaluate_brightness] is total and returns 10 above 500 lux, 40
    above 300 and up to 500 lux, and 80 up to 300 lux, so also for zero
    and negative lux; it returns nothing but 10, 40 and 80. *)
Theorem evaluate_brightness_thresholds (lux : num) :
  (exceeds lux 500 -> evaluate_brightness lux = 10) /\
  (exceeds lux 300 -> at_most lux 500 -> evaluate_brightness lux = 40) /\
  (at_most lux 300 -> evaluate_brightness lux = 80) /\
  (at_most lux 0 -> evaluate_brightness lux = 80) /\
  (evaluate_brightness lux = 10 \/ evaluate_brightness lux = 40 \/
   evaluate_brightness lux = 80).
Proof.
  assert (H300 : at_most lux 300 -> evaluate_brightness lux = 80).
  { intros H3. unfold evaluate_brightness.
    rewrite (py_gt_at_most lux 500), (py_gt_at_most lux 300); auto.
    apply (at_most_mono lux 300); [lia | exact H3]. }
  unfold evaluate_brightness in *.
  repeat split.
  - intros H. apply py_gt_exceeds in H. rewrite H. reflexivity.
  - intros H3 H5. apply py_gt_exceeds in H3. apply py_gt_at_most in H5.
    rewrite H5, H3. reflexivity.
  - exact H300.
  - intros H0. apply H300. apply (at_most_mono lux 0); [lia | exact H0].
  - apply evaluate_brightness_cases.
Qed.

(** A NaN reading compares false with both thresholds. *)
Example evaluate_brightness_nan : evaluate_brightness (PyFloat S754_nan) = 80.
Proof. reflexivity. Qed.

Example evaluate_brightness_samples :
  evaluate_brightness (PyInt 501) = 10 /\
  evaluate_brightness (PyInt 500) = 40 /\
  evaluate_brightness (PyFloat (Float64.literal 5000001 4)) = 10 /\
  evaluate_brightness (PyFloat (Float64.literal 3000001 4)) = 40 /\
  evaluate_brightness (PyInt 300) = 80 /\
  evaluate_brightness (PyFloat (Float64.literal (-125) 1)) = 80.
Proof. repeat split; reflexivity. Qed.

(** ** Energy and cost *)

(** On whole percentages the float computation loses nothing: the energy
    is the float nearest to the exact [0.0004 * brightness]. *)
Lemma calculate_energy_kwh_percent (b : Z) :
  0 <= b <= 100 ->
  calculate_energy_kwh (PyInt b) default_hours default_watt
  = Ok (PyFloat (Float64.literal (4 * b) 4)).
Proof.
  intros Hb.
  assert (H : Forall (fun b => calculate_energy_kwh (PyInt b) default_hours default_watt
                               = Ok (PyFloat (Float64.literal (4 * b) 4))) (seqZ 0 101)).
  { let l := eval vm_compute in (seqZ 0 101) in change (seqZ 0 101) with l.
    repeat (constructor; [vm_compute; reflexivity|]). constructor. }
  rewrite Forall_forall in H. apply H. apply elem_of_seqZ. lia.
Qed.

(** The cost of such an energy is the float nearest to the exact
    [0.15 * kwh] rounded to four places. *)
Lemma calculate_cost_percent (b : Z) :
  0 <= b <= 100 ->
  calculate_cost (PyFloat (Float64.literal (4 * b) 4)) default_rate
  = Ok (PyFloat (Float64.literal (round_half_even (6 * b) 10) 4)).
Proof.
  intros Hb.
  assert (H : Forall (fun b => calculate_cost (PyFloat (Float64.literal (4 * b) 4)) default_rate
                               = Ok (PyFloat (Float64.literal (round_half_even (6 * b) 10) 4)))
                     (seqZ 0 101)).
  { let l := eval vm_compute in (seqZ 0 101) in change (seqZ 0 101) with l.
    repeat (constructor; [vm_compute; reflexivity|]). constructor. }
  rewrite Forall_forall in H. apply H. apply elem_of_seqZ. lia.
Qed.

(** C3: with the default hours and wattage [calculate_energy_kwh] is the
    contract's formula; on a whole percentage it gives the float nearest
    to the exact [0.0004 * brightness], and so brightness 80, 40 and 10
    give the floats 0.032, 0.016 and 0.004. *)
Theorem calculate_energy_kwh_contract :
  (forall brightness_percent : num,
     calculate_energy_kwh brightness_percent default_hours default_watt
     = spec_energy_kwh brightness_percent) /\
  (forall b : Z, 0 <= b <= 100 ->
     calculate_energy_kwh (PyInt b) default_hours default_watt
     = Ok (PyFloat (Float64.literal (4 * b) 4))) /\
  calculate_energy_kwh (PyInt 80) default_hours default_watt
  = Ok (PyFloat (Float64.literal 32 3)) /\
  calculate_energy_kwh (PyInt 40) default_hours default_watt
  = Ok (PyFloat (Float64.literal 16 3)) /\
  calculate_energy_kwh (PyInt 10) default_hours default_watt
  = Ok (PyFloat (Float64.literal 4 3)).
Proof.
  split; [intros bp; reflexivity|].
  split; [exact calculate_energy_kwh_percent|].
  repeat split; vm_compute; reflexivity.
Qed.

(** C4: with the default rate [calculate_cost] is [round(kwh * 0.15, 4)];
    on the energy of a whole percentage it gives the float nearest to the
    exact cost rounded to four places, and 0.032 kWh costs 0.0048. *)
Theorem calculate_cost_contract :
  (forall kwh : num, calculate_cost kwh default_rate = spec_cost kwh) /\
  (forall b : Z, 0 <= b <= 100 ->
     calculate_cost (PyFloat (Float64.literal (4 * b) 4)) default_rate
     = Ok (PyFloat (Float64.literal (round_half_even (6 * b) 10) 4))) /\
  calculate_cost (PyFloat (Float64.literal 32 3)) default_rate
  = Ok (PyFloat (Float64.literal 48 4)).
Proof.
  split; [intros kwh; reflexivity|].
  split; [exact calculate_cost_percent|].
  vm_compute; reflexivity.
Qed.

(** What the pipeline derives from a brightness that [evaluate_brightness]
    returned. *)
Lemma energy_and_cost_of_brightness (lux : num) :
  exists kwh cost,
    energy_of (CNum (PyInt (evaluate_brightness lux))) = Ok (CNum (PyFloat kwh)) /\
    cost_of (CNum (PyFloat kwh)) = Ok (CNum (PyFloat cost)) /\
    ((evaluate_brightness lux = 80 /\ kwh = Float64.literal 32 3 /\ cost = Float64.literal 48 4) \/
     (evaluate_brightness lux = 40 /\ kwh = Float64.literal 16 3 /\ cost = Float64.literal 24 4) \/
     (evaluate_brightness lux = 10 /\ kwh = Float64.literal 4 3 /\ cost = Float64.literal 6 4)).
Proof.
  destruct (evaluate_brightness_cases lux) as [H | [H | H]]; rewrite H.
  - exists (Float64.literal 4 3), (Float64.literal 6 4).
    split; [vm_compute; reflexivity|]. split; [vm_compute; reflexivity|]. auto.
  - exists (Float64.literal 16 3), (Float64.literal 24 4).
    split; [vm_compute; reflexivity|]. split; [vm_compute; reflexivity|]. auto.
  - exists (Float64.literal 32 3), (Float64.literal 48 4).
    split; [vm_compute; reflexivity|]. split; [vm_compute; reflexivity|]. auto.
Qed.

(** ** Running the heap monad *)

Lemma run_bind {A B} (m : M A) (f : A -> M B) (h : gmap ref DataFrame) :
  (m ≫= f) h =
  match m h with
  | (Ok a, h') => f a h'
  | (Raise e, h') => (Raise e, h')
  end.
Proof. reflexivity. Qed.

Lemma run_df_getitem (r : ref) (c : string) (h : gmap ref DataFrame) (df : DataFrame) :
  h !! r = Some df -> df_getitem r c h = (frame_getitem df c, h).
Proof.
  intros Hr. unfold df_getitem. rewrite run_bind. unfold deref. rewrite Hr. reflexivity.
Qed.

Lemma run_df_setitem (r : ref) (c : string) (s : Series)
    (h : gmap ref DataFrame) (df : DataFrame) :
  h !! r = Some df -> df_setitem r c s h = (Ok tt, <[r := frame_setitem df c s]> h).
Proof.
  intros Hr. unfold df_setitem. rewrite run_bind. unfold deref. rewrite Hr. reflexivity.
Qed.

Lemma run_df_dropna (r : ref) (cs : list string) (h : gmap ref DataFrame)
    (df df' : DataFrame) :
  h !! r = Some df -> frame_dropna df cs = Ok df' ->
  df_dropna r cs h = (Ok (fresh (dom h)), <[fresh (dom h) := df']> h).
Proof.
  intros Hr Hd. unfold df_dropna. rewrite run_bind. unfold deref. rewrite Hr.
  rewrite run_bind. unfold lift. rewrite Hd. reflexivity.
Qed.

Lemma run_df_loc (r : ref) (lbl : label) (h : gmap ref DataFrame) (df : DataFrame) :
  h !! r = Some df -> df_loc r lbl h = (frame_loc df lbl, h).
Proof.
  intros Hr. unfold df_loc. rewrite run_bind. unfold deref. rewrite Hr. reflexivity.
Qed.

Lemma run_dangling {A} (r : ref) (f : DataFrame -> M A) (h : gmap ref DataFrame) :
  h !! r = None ->
  (deref r ≫= f) h = (Raise (Exn KeyError "dangling reference"), h).
Proof. intros Hr. rewrite run_bind. unfold deref. rewrite Hr. reflexivity. Qed.

(** ** Frames built row by row *)

Lemma mapM_outcome_fmap {A B X} (f : A -> outcome B) (g : X -> A) (k : X -> B)
    (l : list X) :
  (forall x, x ∈ l -> f (g x) = Ok (k x)) ->
  mapM_outcome f (g <$> l) = Ok (k <$> l).
Proof.
  induction l as [|x l IH]; intros H; csimpl; [reflexivity|].
  rewrite (H x) by left. rewrite IH; [reflexivity|].
  intros y Hy. apply H. right. exact Hy.
Qed.

Lemma zip_with_fmap_same {X A B C} (f : A -> B -> C) (g : X -> A) (k : X -> B)
    (l : list X) :
  zip_with f (g <$> l) (k <$> l) = (fun x => f (g x) (k x)) <$> l.
Proof. induction l as [|x l IH]; csimpl; [reflexivity|]. rewrite IH. reflexivity. Qed.

Section Rowwise.
Context {X : Type} (lab : X -> label) (xs : list X).

Lemma getitem_rowwise (columns : list string) (rw : X -> gmap string cell) (c : string) :
  c ∈ columns ->
  frame_getitem (Frame columns ((fun x => (lab x, rw x)) <$> xs)) c
  = Ok ((fun x => (lab x, cell_at (rw x) c)) <$> xs).
Proof.
  intros Hc. unfold frame_getitem. simpl. rewrite decide_True by exact Hc.
  rewrite <- list_fmap_compose. reflexivity.
Qed.

Lemma setitem_rowwise (columns : list string) (rw : X -> gmap string cell)
    (c : string) (v : X -> cell) :
  frame_setitem (Frame columns ((fun x => (lab x, rw x)) <$> xs)) c
                ((fun x => (lab x, v x)) <$> xs)
  = Frame (add_column c columns) ((fun x => (lab x, <[c := v x]> (rw x))) <$> xs).
Proof. unfold frame_setitem. simpl. rewrite zip_with_fmap_same. reflexivity. Qed.

Lemma apply_rowwise (f : cell -> outcome cell) (v w : X -> cell) :
  (forall x, x ∈ xs -> f (v x) = Ok (w x)) ->
  series_apply f ((fun x => (lab x, v x)) <$> xs) = Ok ((fun x => (lab x, w x)) <$> xs).
Proof.
  intros H. unfold series_apply.
  apply (mapM_outcome_fmap _ (fun x => (lab x, v x)) (fun x => (lab x, w x))).
  intros x Hx. simpl. rewrite (H x Hx). reflexivity.
Qed.
End Rowwise.

Lemma add_column_elem (c : string) (columns : list string) : c ∈ add_column c columns.
Proof. unfold add_column. case_decide; [assumption|]. apply elem_of_app. right. left. Qed.

Lemma add_column_mono (c c' : string) (columns : list string) :
  c ∈ columns -> c ∈ add_column c' columns.
Proof. intros H. unfold add_column. case_decide; [assumption|]. apply elem_of_app. left. exact H. Qed.

Lemma add_column_inv (c c' : string) (columns : list string) :
  c ∈ add_column c' columns -> c = c' \/ c ∈ columns.
Proof.
  unfold add_column. case_decide; [tauto|].
  intros [H' | H']%elem_of_app; [tauto|]. left. apply list_elem_of_singleton in H'. exact H'.
Qed.

Lemma getitem_frame (df : DataFrame) (c : string) :
  c ∈ df_columns df ->
  frame_getitem df c = Ok ((fun lr => (lr.1, cell_at lr.2 c)) <$> df_rows df).
Proof. intros Hc. unfold frame_getitem. rewrite decide_True by exact Hc. reflexivity. Qed.

Lemma setitem_frame (df : DataFrame) (c : string) (v : label * gmap string cell -> cell) :
  frame_setitem df c ((fun lr => (lr.1, v lr)) <$> df_rows df)
  = Frame (add_column c (df_columns df))
          ((fun lr => (lr.1, <[c := v lr]> lr.2)) <$> df_rows df).
Proof.
  unfold frame_setitem. f_equal.
  induction (df_rows df) as [|lr rows IH]; csimpl; [reflexivity|]. rewrite IH. reflexivity.
Qed.

(** ** The matcher, stage by stage *)

Lemma to_datetime_time_cases (c : cell) :
  (exists t, to_datetime_time c = CTime t) \/ to_datetime_time c = CNaT.
Proof.
  destruct c; simpl; eauto.
  destruct (strptime_HM s); eauto.
Qed.

Lemma parsed_time_of_None (r : gmap string cell) :
  parsed_time_of r = None <-> to_datetime_time (cell_at r "time") = CNaT.
Proof.
  unfold parsed_time_of.
  destruct (to_datetime_time_cases (cell_at r "time")) as [[t ->] | ->];
    split; congruence.
Qed.

Lemma seconds_from_now_distance (now : datetime) (t : time_of_day) :
  seconds_from_now now (CDatetime (datetime_combine (dt_date now) t))
  = Ok (CSeconds (distance now t)).
Proof.
  unfold seconds_from_now, distance, total_seconds_between, datetime_combine. simpl.
  do 2 f_equal. lia.
Qed.

Lemma dropna_parsed_time (columns : list string) (rows : list (label * gmap string cell)) :
  "parsed_time" ∈ columns ->
  frame_dropna (Frame columns (with_parsed_time <$> rows)) ["parsed_time"]
  = Ok (Frame columns
          ((fun x => (x.1.1, <["parsed_time" := CTime x.2]> x.1.2)) <$> candidates rows)).
Proof.
  intros Hc. unfold frame_dropna. simpl.
  rewrite bool_decide_false by (intros H; apply H, Hc).
  do 2 f_equal.
  induction rows as [|[l r] rows IH]; csimpl; [reflexivity|].
  unfold with_parsed_time at 1, parsed_time_of. simpl.
  unfold cell_at at 1. rewrite lookup_insert_eq. simpl.
  destruct (to_datetime_time_cases (cell_at r "time")) as [[t Ht] | Ht];
    rewrite Ht; csimpl.
  - f_equal. exact IH.
  - exact IH.
Qed.

Lemma nearest_time_body_run (now : datetime) (h : gmap ref DataFrame) (r : ref)
    (df : DataFrame) :
  h !! r = Some df -> "time" ∈ df_columns df ->
  let h1 := <[r := Frame (add_column "parsed_time" (df_columns df))
                         (with_parsed_time <$> df_rows df)]> h in
  let cs := candidates (df_rows df) in
  let local := Frame (local_columns (df_columns df))
                     ((fun x => (x.1.1, local_row now x)) <$> cs) in
  nearest_time_body now r h =
  ((lbl ← idxmin ((fun x => (x.1.1, CSeconds (distance now x.2))) <$> cs);
    nearest_row ← frame_loc local lbl;
    t ← loc_getitem nearest_row "time";
    b ← loc_getitem nearest_row "brightness";
    Ok (t, b)),
   <[fresh (dom h1) := local]> h1).
Proof.
  intros Hr Htime h1 cs local.
  unfold nearest_time_body.
  rewrite run_bind, (run_df_getitem _ _ _ _ Hr).
  rewrite getitem_frame by exact Htime.
  rewrite run_bind, (run_df_setitem _ _ _ _ _ Hr).
  rewrite <- list_fmap_compose.
  change (frame_setitem df "parsed_time" _)
    with (frame_setitem df "parsed_time"
            ((fun lr => (lr.1, to_datetime_time (cell_at lr.2 "time"))) <$> df_rows df)).
  rewrite (setitem_frame df "parsed_time" (fun lr => to_datetime_time (cell_at lr.2 "time"))).
  change (<[r := _]> h) with h1.
  assert (H1 : h1 !! r = Some (Frame (add_column "parsed_time" (df_columns df))
                                     (with_parsed_time <$> df_rows df)))
    by apply lookup_insert_eq.
  rewrite run_bind, (run_df_dropna _ _ _ _ _ H1 (dropna_parsed_time _ _ (add_column_elem _ _))).
  fold cs.
  set (r2 := fresh (dom h1)).
  set (h2 := <[r2 := _]> h1).
  assert (H2 : h2 !! r2 = Some (Frame (add_column "parsed_time" (df_columns df))
             ((fun x => (x.1.1, <["parsed_time" := CTime x.2]> x.1.2)) <$> cs)))
    by apply lookup_insert_eq.
  rewrite run_bind, (run_df_getitem _ _ _ _ H2).
  rewrite getitem_rowwise by apply add_column_elem.
  rewrite run_bind. unfold lift at 1.
  rewrite (apply_rowwise _ _ _ _
             (fun x => CDatetime (datetime_combine (dt_date now) x.2)))
    by (intros x _; unfold cell_at; rewrite lookup_insert_eq; reflexivity).
  rewrite run_bind, (run_df_setitem _ _ _ _ _ H2).
  rewrite setitem_rowwise.
  set (h3 := <[r2 := _]> h2).
  assert (H3 : h3 !! r2 = Some (Frame (add_column "datetime_obj" (add_column "parsed_time" (df_columns df)))
             ((fun x => (x.1.1, <["datetime_obj" := CDatetime (datetime_combine (dt_date now) x.2)]>
                                  (<["parsed_time" := CTime x.2]> x.1.2))) <$> cs)))
    by apply lookup_insert_eq.
  rewrite run_bind, (run_df_getitem _ _ _ _ H3).
  rewrite getitem_rowwise by apply add_column_elem.
  rewrite run_bind. unfold lift at 1.
  rewrite (apply_rowwise _ _ _ _ (fun x => CSeconds (distance now x.2)))
    by (intros x _; unfold cell_at; rewrite lookup_insert_eq; apply seconds_from_now_distance).
  rewrite run_bind, (run_df_setitem _ _ _ _ _ H3).
  rewrite setitem_rowwise.
  set (h4 := <[r2 := _]> h3).
  assert (H4 : h4 !! r2 = Some local) by apply lookup_insert_eq.
  rewrite run_bind, (run_df_getitem _ _ _ _ H4).
  unfold local at 1. rewrite getitem_rowwise by apply add_column_elem.
  assert (Hh : h4 = <[r2 := local]> h1).
  { unfold h4, h3, h2. rewrite !insert_insert_eq. reflexivity. }
  rewrite <- Hh.
  rewrite (list_fmap_ext _ (fun x => (x.1.1, CSeconds (distance now x.2))) cs)
    by (intros i x _; unfold cell_at, local_row; rewrite lookup_insert_eq; reflexivity).
  rewrite run_bind. unfold lift at 1.
  destruct (idxmin _) as [lbl|e]; [|reflexivity].
  cbn [mbind outcome_bind].
  rewrite run_bind, (run_df_loc _ _ _ _ H4).
  destruct (frame_loc local lbl) as [nearest_row|e]; [|reflexivity].
  cbn [mbind outcome_bind].
  rewrite run_bind. unfold lift at 1.
  destruct (loc_getitem nearest_row "time") as [t|e]; [|reflexivity].
  cbn [mbind outcome_bind].
  rewrite run_bind. unfold lift at 1.
  destruct (loc_getitem nearest_row "brightness") as [b|e]; reflexivity.
Qed.

(** ** The first minimum of a list *)

Lemma first_min_bound (best : label * Z) (l : list (label * Z)) :
  (first_min best l).2 <= best.2 /\
  Forall (fun y => (first_min best l).2 <= y.2) l.
Proof.
  revert best. induction l as [|x l IH]; intros best; simpl.
  - split; [lia | constructor].
  - destruct (IH (if x.2 <? best.2 then x else best)) as [Hb Hl].
    destruct (Z.ltb_spec x.2 best.2); (split; [lia | constructor; [lia | exact Hl]]).
Qed.

(** [first_min] returns an element of the list, smaller than all before
    it and at most as large as all after it. *)
Lemma first_min_split (best : label * Z) (l : list (label * Z)) :
  exists l1 l2,
    best :: l = l1 ++ first_min best l :: l2 /\
    Forall (fun y => (first_min best l).2 < y.2) l1 /\
    Forall (fun y => (first_min best l).2 <= y.2) l2.
Proof.
  revert best. induction l as [|x l IH]; intros best.
  - exists [], []. simpl. repeat split; constructor.
  - simpl. destruct (Z.ltb_spec x.2 best.2) as [Hlt | Hge].
    + destruct (IH x) as (l1 & l2 & Heq & H1 & H2).
      exists (best :: l1), l2. rewrite Heq. repeat split; [|exact H2].
      constructor; [|exact H1].
      pose proof (first_min_bound x l) as [Hb _]. lia.
    + destruct (IH best) as (l1 & l2 & Heq & H1 & H2).
      destruct l1 as [|b l1]; simpl in Heq; injection Heq as Hb Hl.
      * exists [], (x :: l2). rewrite <- Hb, Hl. simpl.
        split; [reflexivity|]. split; [constructor|].
        constructor; [exact Hge|]. rewrite Hb. exact H2.
      * exists (b :: x :: l1), l2. subst b. simpl.
        split; [do 2 f_equal; exact Hl|]. split; [|exact H2].
        inversion H1 as [|? ? Hbest H1']; subst.
        constructor; [exact Hbest|]. constructor; [lia | exact H1'].
Qed.

Lemma omap_split_inv {A B} (f : A -> option B) (l : list A) (k1 k2 : list B) (y : B) :
  omap f l = k1 ++ y :: k2 ->
  exists l1 x l2, l = l1 ++ x :: l2 /\ f x = Some y /\ omap f l1 = k1 /\ omap f l2 = k2.
Proof.
  revert k1. induction l as [|a l IH]; intros k1 H; csimpl in H.
  - destruct k1; discriminate.
  - destruct (f a) as [b|] eqn:Ha; csimpl in H.
    + destruct k1 as [|b' k1]; simpl in H; injection H as Hb Hl.
      * subst b. exists [], a, l. repeat split; assumption.
      * subst b'. destruct (IH _ Hl) as (l1 & x & l2 & -> & Hx & H1 & H2).
        exists (a :: l1), x, l2. csimpl. rewrite Ha. csimpl. rewrite H1.
        repeat split; assumption.
    + destruct (IH _ H) as (l1 & x & l2 & -> & Hx & H1 & H2).
      exists (a :: l1), x, l2. csimpl. rewrite Ha. csimpl.
      repeat split; assumption.
Qed.

Lemma filter_none {A} (p : A -> bool) (l : list A) :
  Forall (fun x => p x = false) l -> List.filter p l = [].
Proof.
  induction 1 as [|x l Hx _ IH]; simpl; [reflexivity|]. rewrite Hx. exact IH.
Qed.

(** [df.loc[lbl]] finds the row, when no other row has its label. *)
Lemma frame_loc_unique (columns : list string) (before after : list (label * gmap string cell))
    (lr : label * gmap string cell) :
  lr.1 ∉ before.*1 -> lr.1 ∉ after.*1 ->
  frame_loc (Frame columns (before ++ lr :: after)) lr.1 = Ok (LocRow columns lr.2).
Proof.
  intros Hb Ha. unfold frame_loc. simpl.
  rewrite List.filter_app. simpl. rewrite bool_decide_true by reflexivity.
  rewrite !filter_none; [reflexivity| |].
  - apply Forall_forall. intros y Hy. apply bool_decide_false. intros E.
    apply Ha. rewrite <- E. apply list_elem_of_fmap_2. exact Hy.
  - apply Forall_forall. intros y Hy. apply bool_decide_false. intros E.
    apply Hb. rewrite <- E. apply list_elem_of_fmap_2. exact Hy.
Qed.

Lemma idxmin_seconds {X} (lab : X -> label) (secs : X -> Z) (x : X) (xs : list X) :
  idxmin ((fun x => (lab x, CSeconds (secs x))) <$> (x :: xs))
  = Ok (first_min (lab x, secs x) ((fun x => (lab x, secs x)) <$> xs)).1.
Proof.
  unfold idxmin.
  rewrite (mapM_outcome_fmap _ _ (fun x => (lab x, secs x))) by reflexivity.
  reflexivity.
Qed.

Lemma idxmin_empty : idxmin [] = Raise (Exn ValueError "attempt to get argmin of an empty sequence").
Proof. reflexivity. Qed.

Lemma local_row_lookup (now : datetime) (x : label * gmap string cell * time_of_day)
    (c : string) :
  c ≠ "time_diff" -> c ≠ "datetime_obj" -> c ≠ "parsed_time" ->
  cell_at (local_row now x) c = cell_at x.1.2 c.
Proof.
  intros H1 H2 H3. unfold cell_at, local_row.
  rewrite !lookup_insert_ne by congruence. reflexivity.
Qed.

Lemma local_columns_mono (c : string) (columns : list string) :
  c ∈ columns -> c ∈ local_columns columns.
Proof. intros H. unfold local_columns. do 3 apply add_column_mono. exact H. Qed.

Lemma local_columns_inv (c : string) (columns : list string) :
  c ∈ local_columns columns ->
  c ≠ "time_diff" -> c ≠ "datetime_obj" -> c ≠ "parsed_time" -> c ∈ columns.
Proof.
  unfold local_columns. intros H H1 H2 H3.
  apply add_column_inv in H as [H | H]; [contradiction|].
  apply add_column_inv in H as [H | H]; [contradiction|].
  apply add_column_inv in H as [H | H]; [contradiction|]. exact H.
Qed.

Lemma candidates_labels (rows : list (label * gmap string cell)) (l : label) :
  l ∉ rows.*1 -> forall g : label * gmap string cell * time_of_day -> gmap string cell,
  l ∉ ((fun x => (x.1.1, g x)) <$> candidates rows).*1.
Proof.
  intros Hl g Hin. apply Hl.
  apply list_elem_of_fmap in Hin as ([l' r'] & -> & Hin).
  apply list_elem_of_fmap in Hin as (x & Hx & Hin).
  injection Hx as -> _.
  apply list_elem_of_omap in Hin as (lr & Hlr & Hf).
  destruct (parsed_time_of lr.2); [|discriminate]. simpl in Hf. injection Hf as <-.
  simpl. apply (list_elem_of_fmap_2 fst _ lr). exact Hlr.
Qed.

(** What the body of the [try] computes on a frame with unique labels. *)
Lemma nearest_time_result (now : datetime) (h : gmap ref DataFrame) (r : ref)
    (df : DataFrame) :
  h !! r = Some df -> "time" ∈ df_columns df -> "brightness" ∈ df_columns df ->
  NoDup (df_rows df).*1 ->
  (candidates (df_rows df) = [] /\
   (nearest_time_body now r h).1
   = Raise (Exn ValueError "attempt to get argmin of an empty sequence")) \/
  (exists before lr after t,
     df_rows df = before ++ lr :: after /\
     parsed_time_of lr.2 = Some t /\
     (nearest_time_body now r h).1
     = Ok (VCell (cell_at lr.2 "time"), VCell (cell_at lr.2 "brightness")) /\
     Forall (fun x => distance now t < distance now x.2) (candidates before) /\
     Forall (fun x => distance now t <= distance now x.2) (candidates after)).
Proof.
  intros Hr Htime Hbright Hnodup.
  rewrite (nearest_time_body_run now h r df Hr Htime). cbn [fst].
  destruct (candidates (df_rows df)) as [|c cs] eqn:Hcs.
  { left. split; reflexivity. }
  right.
  rewrite (idxmin_seconds (fun x => x.1.1) (fun x => distance now x.2)).
  destruct (first_min_split (c.1.1, distance now c.2)
              ((fun x => (x.1.1, distance now x.2)) <$> cs))
    as (k1 & k2 & Hsplit & Hlt & Hle).
  set (m := first_min _ _) in *.
  change ((c.1.1, distance now c.2) :: ((fun x => (x.1.1, distance now x.2)) <$> cs))
    with ((fun x : label * gmap string cell * time_of_day => (x.1.1, distance now x.2)) <$> (c :: cs))
    in Hsplit.
  apply fmap_app_inv in Hsplit as (c1 & c2' & -> & Hc2 & Hcat).
  symmetry in Hc2. apply fmap_cons_inv in Hc2 as (x & c2 & Hm & -> & ->).
  pose proof Hcat as Hcat'.
  rewrite <- Hcs in Hcat. unfold candidates in Hcat.
  apply omap_split_inv in Hcat as (before & lr & after & Hrows & Hx & Hbefore & Hafter).
  destruct (parsed_time_of lr.2) as [t|] eqn:Ht; [|discriminate].
  simpl in Hx. injection Hx as <-.
  exists before, lr, after, t.
  split; [exact Hrows|]. split; [exact Ht|].
  rewrite Hrows, fmap_app, fmap_cons in Hnodup.
  apply NoDup_app in Hnodup as (_ & Hdisj & Hnodup).
  apply NoDup_cons in Hnodup as (Hafter_l & _).
  assert (Hbefore_l : lr.1 ∉ before.*1).
  { intros Hin. apply (Hdisj _ Hin). left. }
  split.
  - rewrite Hm. cbn [fst snd mbind outcome_bind].
    rewrite Hcat', fmap_app, fmap_cons, <- Hbefore, <- Hafter.
    rewrite (frame_loc_unique _ _ _ (lr.1, local_row now (lr, t)))
      by (apply candidates_labels; assumption).
    cbn [mbind outcome_bind loc_getitem snd].
    rewrite !decide_True by (apply local_columns_mono; assumption).
    cbn [mbind outcome_bind].
    rewrite !local_row_lookup by discriminate. reflexivity.
  - split.
    + rewrite Forall_fmap, Hm in Hlt. unfold candidates. rewrite Hbefore. exact Hlt.
    + rewrite Forall_fmap, Hm in Hle. unfold candidates. rewrite Hafter. exact Hle.
Qed.

(** ** The matcher as its callers see it *)

Lemma run_get_nearest (now : datetime) (r : ref) (h : gmap ref DataFrame) :
  get_nearest_time_brightness now r h =
  match nearest_time_body now r h with
  | (Ok v, h') => (Ok v, h')
  | (Raise _, h') => (Ok (VNone, VNone), h')
  end.
Proof. reflexivity. Qed.

Lemma nearest_time_body_no_time (now : datetime) (h : gmap ref DataFrame) (r : ref)
    (df : DataFrame) :
  h !! r = Some df -> "time" ∉ df_columns df ->
  nearest_time_body now r h = (Raise (Exn KeyError (quoted "time")), h).
Proof.
  intros Hr Htime. unfold nearest_time_body.
  rewrite run_bind, (run_df_getitem _ _ _ _ Hr).
  unfold frame_getitem. rewrite decide_False by exact Htime. reflexivity.
Qed.



Lemma candidates_all (rows : list (label * gmap string cell))
    (P : label * gmap string cell * time_of_day -> Prop) :
  Forall (fun lr => is_Some (parsed_time_of lr.2)) rows ->
  Forall P (candidates rows) ->
  Forall (fun lr => exists t, parsed_time_of lr.2 = Some t /\ P (lr, t)) rows.
Proof.
  induction 1 as [|lr rows [t Ht] _ IH]; intros HP; [constructor|].
  unfold candidates in HP. csimpl in HP. rewrite Ht in HP. csimpl in HP.
  inversion HP as [|? ? Hx Hrest]; subst.
  constructor; [exists t; split; assumption|]. apply IH. exact Hrest.
Qed.


(** On a frame with unique row labels whose times all parse, the matcher
    returns the time and brightness of a row at the minimal distance from
    [now], with every row before it strictly further away. *)
Lemma nearest_time_first_minimum_labelled (now : datetime) (h : gmap ref DataFrame)
    (r : ref) (df : DataFrame) :
  h !! r = Some df ->
  "time" ∈ df_columns df -> "brightness" ∈ df_columns df ->
  NoDup (df_rows df).*1 ->
  df_rows df ≠ [] ->
  Forall (fun lr => is_Some (parsed_time_of lr.2)) (df_rows df) ->
  exists before lr after t,
    df_rows df = before ++ lr :: after /\
    parsed_time_of lr.2 = Some t /\
    (get_nearest_time_brightness now r h).1
    = Ok (VCell (cell_at lr.2 "time"), VCell (cell_at lr.2 "brightness")) /\
    Forall (fun lr' => exists t', parsed_time_of lr'.2 = Some t' /\
                                  distance now t < distance now t') before /\
    Forall (fun lr' => exists t', parsed_time_of lr'.2 = Some t' /\
                                  distance now t <= distance now t') after.
Proof.
  intros Hr Htime Hbright Hnodup Hrows Hall.
  destruct (nearest_time_result now h r df Hr Htime Hbright Hnodup)
    as [[Hnil _] | (before & lr & after & t & Hsplit & Ht & Hres & Hlt & Hle)].
  - exfalso. destruct (df_rows df) as [|lr rows]; [congruence|].
    inversion Hall as [|? ? [t Ht] _]; subst.
    unfold candidates in Hnil. csimpl in Hnil. rewrite Ht in Hnil. discriminate.
  - exists before, lr, after, t.
    rewrite Hsplit in Hall. apply Forall_app in Hall as [Hall1 Hall2].
    apply Forall_cons in Hall2 as [_ Hall2].
    repeat split; try assumption.
    + rewrite run_get_nearest.
      destruct (nearest_time_body now r h) as [[v|e] h']; simpl in *; congruence.
    + apply (candidates_all before (fun x => distance now t < distance now x.2));
        assumption.
    + apply (candidates_all after (fun x => distance now t <= distance now x.2));
        assumption.
Qed.

Lemma table_labels (columns : list string) (rows : list (gmap string cell)) :
  (df_rows (table columns rows)).*1 = seq 0 (length rows) /\
  (df_rows (table columns rows)).*2 = rows.
Proof.
  simpl. split.
  - apply fst_zip. rewrite length_seq. reflexivity.
  - apply snd_zip. rewrite length_seq. reflexivity.
Qed.

(** C6: on a non-empty table whose times all parse, the matcher returns
    the time and brightness of the row whose distance in seconds from
    [now] is minimal; every row before it is strictly further away, so
    among the rows at the minimum the first one wins. *)
Theorem nearest_time_first_minimum (now : datetime) (h : gmap ref DataFrame)
    (r : ref) (columns : list string) (rows : list (gmap string cell)) :
  h !! r = Some (table columns rows) ->
  "time" ∈ columns -> "brightness" ∈ columns ->
  rows ≠ [] ->
  Forall (fun row => is_Some (parsed_time_of row)) rows ->
  exists before row after t,
    rows = before ++ row :: after /\
    parsed_time_of row = Some t /\
    (get_nearest_time_brightness now r h).1
    = Ok (VCell (cell_at row "time"), VCell (cell_at row "brightness")) /\
    Forall (fun row' => exists t', parsed_time_of row' = Some t' /\
                                   distance now t < distance now t') before /\
    Forall (fun row' => exists t', parsed_time_of row' = Some t' /\
                                   distance now t <= distance now t') after.
Proof.
  intros Hr Htime Hbright Hrows Hall.
  destruct (table_labels columns rows) as [Hlabels Hvalues].
  destruct (nearest_time_first_minimum_labelled now h r (table columns rows))
    as (before & lr & after & t & Hsplit & Ht & Hres & Hlt & Hle);
    try assumption.
  - rewrite Hlabels. apply NoDup_seq.
  - intros E. apply Hrows. rewrite <- Hvalues, E. reflexivity.
  - apply Forall_forall. intros lr Hlr.
    rewrite Forall_forall in Hall. apply Hall.
    rewrite <- Hvalues. apply (list_elem_of_fmap_2 snd). exact Hlr.
  - exists before.*2, lr.2, after.*2, t.
    split; [rewrite <- Hvalues, Hsplit, fmap_app; reflexivity|].
    split; [exact Ht|]. split; [exact Hres|].
    split; apply Forall_fmap; [exact Hlt | exact Hle].
Qed.


Lemma frame_loc_columns (df : DataFrame) (lbl : label) (nr : loc_result) (c : string) :
  frame_loc df lbl = Ok nr -> c ∉ df_columns df ->
  exists e, loc_getitem nr c = Raise e.
Proof.
  unfold frame_loc. intros H Hc.
  destruct (List.filter _ _) as [|lr [|lr' rs]]; [discriminate| |];
    injection H as <-; simpl.
  - rewrite decide_False by exact Hc. eauto.
  - unfold frame_getitem. simpl. rewrite decide_False by exact Hc. simpl. eauto.
Qed.

(** C10: the matcher is total and raises nothing: it always returns a
    pair; whenever the body of its [try] raises, the pair is
    [(None, None)], which is the case for a table without a [time] column
    and for one without a [brightness] column. *)
Theorem get_nearest_time_brightness_total (now : datetime) (r : ref)
    (h : gmap ref DataFrame) :
  (exists v h', get_nearest_time_brightness now r h = (Ok v, h')) /\
  (forall e h', nearest_time_body now r h = (Raise e, h') ->
                get_nearest_time_brightness now r h = (Ok (VNone, VNone), h')) /\
  (forall df, h !! r = Some df -> "time" ∉ df_columns df ->
              (get_nearest_time_brightness now r h).1 = Ok (VNone, VNone)) /\
  (forall df, h !! r = Some df -> "brightness" ∉ df_columns df ->
              (get_nearest_time_brightness now r h).1 = Ok (VNone, VNone)).
Proof.
  repeat split.
  - rewrite run_get_nearest.
    destruct (nearest_time_body now r h) as [[v|e] h']; eauto.
  - intros e h' H. rewrite run_get_nearest, H. reflexivity.
  - intros df Hr Htime.
    rewrite run_get_nearest, (nearest_time_body_no_time now h r df Hr Htime).
    reflexivity.
  - intros df Hr Hbright. rewrite run_get_nearest.
    destruct (decide ("time" ∈ df_columns df)) as [Htime | Htime].
    + rewrite (nearest_time_body_run now h r df Hr Htime).
      destruct (idxmin _) as [lbl|e]; [|reflexivity].
      cbn [mbind outcome_bind].
      destruct (frame_loc _ lbl) as [nr|e] eqn:Hloc; [|reflexivity].
      cbn [mbind outcome_bind].
      destruct (loc_getitem nr "time") as [t|e]; [|reflexivity].
      cbn [mbind outcome_bind].
      destruct (frame_loc_columns _ _ _ "brightness" Hloc) as [e ->]; [|reflexivity].
      simpl. intros Hin. apply Hbright.
      apply local_columns_inv in Hin; [exact Hin | discriminate..].
    + rewrite (nearest_time_body_no_time now h r df Hr Htime). reflexivity.
Qed.

(** ** The enrichment *)

Lemma apply_rowwise_inv {X} (lab : X -> label) (xs : list X) (f : cell -> outcome cell)
    (v : X -> cell) (s : Series) :
  series_apply f ((fun x => (lab x, v x)) <$> xs) = Ok s ->
  s = (fun x => (lab x, ok_or NaN (f (v x)))) <$> xs.
Proof.
  unfold series_apply. revert s.
  induction xs as [|x xs IH]; intros s H; csimpl in H.
  - injection H as <-. reflexivity.
  - destruct (f (v x)) as [y|e] eqn:Hx; [|discriminate]. cbn [mbind outcome_bind] in H.
    destruct (mapM_outcome _ _) as [ys|e]; [|discriminate].
    injection H as <-. csimpl. rewrite Hx. simpl. f_equal. apply IH. reflexivity.
Qed.

Lemma enrich_run (h : gmap ref DataFrame) (r : ref) (df : DataFrame) :
  h !! r = Some df ->
  enrich r h = ((enrich_frame df).1, <[r := (enrich_frame df).2]> h).
Proof.
  intros Hr. unfold enrich, enrich_frame.
  rewrite run_bind, (run_df_getitem _ _ _ _ Hr).
  destruct (frame_getitem df "lux") as [lux|e]; cbn [mbind outcome_bind fst snd];
    [|rewrite insert_id by exact Hr; reflexivity].
  rewrite run_bind. unfold lift at 1.
  destruct (series_apply brightness_of lux) as [brightness|e]; cbn [fst snd];
    [|rewrite insert_id by exact Hr; reflexivity].
  rewrite run_bind, (run_df_setitem _ _ _ _ _ Hr).
  set (df1 := frame_setitem df "brightness" brightness).
  assert (H1 : <[r := df1]> h !! r = Some df1) by apply lookup_insert_eq.
  rewrite run_bind, (run_df_getitem _ _ _ _ H1).
  destruct (frame_getitem df1 "brightness") as [b|e]; cbn [mbind outcome_bind fst snd];
    [|reflexivity].
  rewrite run_bind. unfold lift at 1.
  destruct (series_apply energy_of b) as [energy|e]; cbn [fst snd]; [|reflexivity].
  rewrite run_bind, (run_df_setitem _ _ _ _ _ H1), insert_insert_eq.
  set (df2 := frame_setitem df1 "energy_kwh" energy).
  assert (H2 : <[r := df2]> h !! r = Some df2) by apply lookup_insert_eq.
  rewrite run_bind, (run_df_getitem _ _ _ _ H2).
  destruct (frame_getitem df2 "energy_kwh") as [en|e]; cbn [mbind outcome_bind fst snd];
    [|reflexivity].
  rewrite run_bind. unfold lift at 1.
  destruct (series_apply cost_of en) as [cost|e]; cbn [fst snd]; [|reflexivity].
  rewrite (run_df_setitem _ _ _ _ _ H2), insert_insert_eq. reflexivity.
Qed.

Lemma enrich_frame_Ok (df out : DataFrame) :
  enrich_frame df = (Ok tt, out) ->
  df_rows out = (fun lr => (lr.1, derived_row lr.2)) <$> df_rows df.
Proof.
  unfold enrich_frame.
  destruct (decide ("lux" ∈ df_columns df)) as [Hlux | Hlux].
  2:{ unfold frame_getitem at 1. rewrite decide_False by exact Hlux. discriminate. }
  rewrite getitem_frame by exact Hlux. cbn [mbind outcome_bind].
  destruct (series_apply brightness_of _) as [brightness|e] eqn:Hb; [|discriminate].
  apply (apply_rowwise_inv fst) in Hb. subst brightness.
  rewrite setitem_frame.
  rewrite (getitem_rowwise fst) by apply add_column_elem.
  cbn [mbind outcome_bind].
  destruct (series_apply energy_of _) as [energy|e] eqn:He; [|discriminate].
  apply (apply_rowwise_inv fst) in He. subst energy.
  rewrite (setitem_rowwise fst).
  rewrite (getitem_rowwise fst) by apply add_column_elem.
  cbn [mbind outcome_bind].
  destruct (series_apply cost_of _) as [cost|e] eqn:Hc; [|discriminate].
  apply (apply_rowwise_inv fst) in Hc. subst cost.
  rewrite (setitem_rowwise fst).
  intros H. injection H as <-. simpl.
  apply list_fmap_ext. intros i lr _. f_equal.
  unfold derived_row, derived_cost, derived_energy, derived_brightness, cell_at.
  rewrite !lookup_insert_eq. reflexivity.
Qed.

Lemma derived_row_cells (r : gmap string cell) :
  cell_at (derived_row r) "brightness" = derived_brightness (cell_at r "lux") /\
  cell_at (derived_row r) "energy_kwh" = derived_energy (cell_at r "lux") /\
  cell_at (derived_row r) "cost" = derived_cost (cell_at r "lux").
Proof.
  unfold cell_at at 1 3 5. unfold derived_row.
  rewrite lookup_insert_eq.
  rewrite !(lookup_insert_ne _ "cost") by discriminate.
  rewrite lookup_insert_eq.
  rewrite !(lookup_insert_ne _ "energy_kwh") by discriminate.
  rewrite lookup_insert_eq. repeat split.
Qed.

Lemma derived_cells_numeric (n : num) :
  brightness_of (CNum n) = Ok (derived_brightness (CNum n)) /\
  energy_of (derived_brightness (CNum n)) = Ok (derived_energy (CNum n)) /\
  cost_of (derived_energy (CNum n)) = Ok (derived_cost (CNum n)).
Proof.
  unfold derived_cost, derived_energy, derived_brightness.
  change (brightness_of (CNum n)) with (Ok (A:=cell) (CNum (PyInt (evaluate_brightness n)))).
  cbn [ok_or].
  destruct (energy_and_cost_of_brightness n) as (kwh & cost & -> & Hc & _).
  cbn [ok_or]. rewrite Hc. repeat split.
Qed.

(** On a table whose lux values are all numbers the enrichment raises
    nothing. *)
Lemma enrich_numeric (h : gmap ref DataFrame) (r : ref) (df : DataFrame) :
  h !! r = Some df -> "lux" ∈ df_columns df ->
  Forall (fun lr => exists n, cell_at lr.2 "lux" = CNum n) (df_rows df) ->
  (enrich r h).1 = Ok tt.
Proof.
  intros Hr Hlux Hnum. rewrite (enrich_run h r df Hr). cbn [fst].
  rewrite Forall_forall in Hnum.
  unfold enrich_frame.
  rewrite getitem_frame by exact Hlux. cbn [mbind outcome_bind].
  rewrite (apply_rowwise fst _ _ _ (fun lr => derived_brightness (cell_at lr.2 "lux"))).
  2:{ intros lr Hlr. destruct (Hnum lr Hlr) as [n ->]. apply derived_cells_numeric. }
  rewrite setitem_frame.
  rewrite (getitem_rowwise fst) by apply add_column_elem.
  cbn [mbind outcome_bind].
  rewrite (apply_rowwise fst _ _ _ (fun lr => derived_energy (cell_at lr.2 "lux"))).
  2:{ intros lr Hlr. unfold cell_at at 1. rewrite lookup_insert_eq. simpl.
      destruct (Hnum lr Hlr) as [n ->]. apply derived_cells_numeric. }
  rewrite (setitem_rowwise fst).
  rewrite (getitem_rowwise fst) by apply add_column_elem.
  cbn [mbind outcome_bind].
  rewrite (apply_rowwise fst _ _ _ (fun lr => derived_cost (cell_at lr.2 "lux"))).
  2:{ intros lr Hlr. unfold cell_at at 1. rewrite lookup_insert_eq. simpl.
      destruct (Hnum lr Hlr) as [n ->]. apply derived_cells_numeric. }
  reflexivity.
Qed.

(** C7: the enrichment has no hidden state. Run on the same table, at
    whatever address and beside whatever other objects, it has the same
    outcome and leaves the same table; two rows with the same lux, of the
    same or of different tables, get the same brightness, energy and
    cost; and the brightness depends on the value of the lux alone. *)
Theorem enrichment_deterministic (h1 h2 : gmap ref DataFrame) (r1 r2 : ref)
    (df1 df2 : DataFrame) :
  h1 !! r1 = Some df1 -> h2 !! r2 = Some df2 ->
  (df1 = df2 ->
   (enrich r1 h1).1 = (enrich r2 h2).1 /\
   (enrich r1 h1).2 !! r1 = (enrich r2 h2).2 !! r2) /\
  (forall out1 out2 i j lr1 lr2 o1 o2,
     (enrich r1 h1).1 = Ok tt -> (enrich r2 h2).1 = Ok tt ->
     (enrich r1 h1).2 !! r1 = Some out1 -> (enrich r2 h2).2 !! r2 = Some out2 ->
     df_rows df1 !! i = Some lr1 -> df_rows df2 !! j = Some lr2 ->
     df_rows out1 !! i = Some o1 -> df_rows out2 !! j = Some o2 ->
     cell_at lr1.2 "lux" = cell_at lr2.2 "lux" ->
     cell_at o1.2 "brightness" = cell_at o2.2 "brightness" /\
     cell_at o1.2 "energy_kwh" = cell_at o2.2 "energy_kwh" /\
     cell_at o1.2 "cost" = cell_at o2.2 "cost") /\
  (forall a b : num,
     (forall k, exceeds a k <-> exceeds b k) ->
     evaluate_brightness a = evaluate_brightness b).
Proof.
  intros H1 H2.
  rewrite (enrich_run h1 r1 df1 H1), (enrich_run h2 r2 df2 H2). cbn [fst snd].
  rewrite !lookup_insert_eq.
  split; [|split; [|exact evaluate_brightness_by_value]].
  - intros ->. split; reflexivity.
  - intros out1 out2 i j lr1 lr2 o1 o2 Hok1 Hok2 Hout1 Hout2 Hi Hj Ho1 Ho2 Hlux.
    injection Hout1 as Hout1. injection Hout2 as Hout2.
    assert (E1 : enrich_frame df1 = (Ok tt, out1)).
    { destruct (enrich_frame df1) as [o d]. simpl in *. congruence. }
    assert (E2 : enrich_frame df2 = (Ok tt, out2)).
    { destruct (enrich_frame df2) as [o d]. simpl in *. congruence. }
    apply enrich_frame_Ok in E1, E2.
    rewrite E1, list_lookup_fmap, Hi in Ho1. injection Ho1 as <-.
    rewrite E2, list_lookup_fmap, Hj in Ho2. injection Ho2 as <-.
    cbn [snd].
    destruct (derived_row_cells lr1.2) as (-> & -> & ->).
    destruct (derived_row_cells lr2.2) as (-> & -> & ->).
    rewrite Hlux. repeat split.
Qed.

(** ** The narrator *)

Lemma full_prompt_spec (str_other : cell -> string) (df : DataFrame) :
  "time" ∈ df_columns df -> "lux" ∈ df_columns df -> "brightness" ∈ df_columns df ->
  full_prompt str_other df = Ok (spec_prompt str_other (iterrows df)).
Proof.
  intros Ht Hl Hb. unfold full_prompt.
  rewrite <- (list_fmap_id (iterrows df)) at 1.
  rewrite (mapM_outcome_fmap _ id (fun lr => spec_line str_other lr.2)).
  - reflexivity.
  - intros lr _. unfold prompt_line, row_getitem.
    rewrite !decide_True by assumption. reflexivity.
Qed.

Lemma iterrows_length (df : DataFrame) : length (iterrows df) = length (df_rows df).
Proof. unfold iterrows. case_match; [apply length_fmap | reflexivity]. Qed.

(** A frame with a text in its [time] column hands out its rows as they
    are. *)
Lemma iterrows_text (df : DataFrame) :
  "time" ∈ df_columns df ->
  Exists (fun lr => exists s, cell_at lr.2 "time" = CStr s) (df_rows df) ->
  iterrows df = df_rows df.
Proof.
  intros Ht Htext. unfold iterrows.
  destruct (forallb numeric_cell (frame_cells df)) eqn:Hnum; [|reflexivity].
  exfalso. rewrite forallb_forall in Hnum.
  apply Exists_exists in Htext as (lr & Hlr & s & Hs).
  assert (Hin : CStr s ∈ frame_cells df).
  { unfold frame_cells. apply list_elem_of_bind. exists lr. split; [|exact Hlr].
    rewrite <- Hs. apply (list_elem_of_fmap_2 (fun c => cell_at lr.2 c)). exact Ht. }
  apply list_elem_of_In, Hnum in Hin. discriminate.
Qed.

(** C8: for a table with the columns [time], [lux] and [brightness] the
    prompt is the preamble, then one line [Time: <time>, Daylight: <lux>
    lux, Brightness: <brightness>%] per row, of the row's values as
    [iterrows] hands them out (as they are, when the times are texts),
    joined by newlines, then the format hint; it is the content of the
    one request that the narrator receives. *)
Theorem prompt_emitted_to_narrator (str_other : cell -> string) (df : DataFrame)
    (groq_api_key : string) :
  "time" ∈ df_columns df -> "lux" ∈ df_columns df -> "brightness" ∈ df_columns df ->
  let prompt := spec_prompt str_other (iterrows df) in
  length (iterrows df) = length (df_rows df) /\
  (Exists (fun lr => exists s, cell_at lr.2 "time" = CStr s) (df_rows df) ->
   iterrows df = df_rows df) /\
  full_prompt str_other df = Ok prompt /\
  req_content (groq_request prompt groq_api_key) = prompt /\
  (forall http_post http_post' : request -> outcome response,
     http_post (groq_request prompt groq_api_key)
     = http_post' (groq_request prompt groq_api_key) ->
     call_groq_scheduler str_other http_post df groq_api_key
     = call_groq_scheduler str_other http_post' df groq_api_key) /\
  call_groq_scheduler str_other echo_server df groq_api_key = Ok (JString prompt).
Proof.
  intros Ht Hl Hb prompt.
  pose proof (full_prompt_spec str_other df Ht Hl Hb) as Hp. fold prompt in Hp.
  split; [apply iterrows_length|].
  split; [intros Htext; apply iterrows_text; assumption|].
  split; [exact Hp|]. split; [reflexivity|]. split.
  - intros post post' Hsame. unfold call_groq_scheduler.
    rewrite Hp. cbn [mbind outcome_bind]. rewrite Hsame. reflexivity.
  - unfold call_groq_scheduler. rewrite Hp. reflexivity.
Qed.

(** Once [requests.post] has returned, nothing is raised. *)
Lemma call_groq_scheduler_after_post (str_other : cell -> string)
    (http_post : request -> outcome response) (df : DataFrame) (groq_api_key prompt : string)
    (resp : response) :
  full_prompt str_other df = Ok prompt ->
  http_post (groq_request prompt groq_api_key) = Ok resp ->
  is_ok (call_groq_scheduler str_other http_post df groq_api_key).
Proof.
  intros Hp Hpost. unfold call_groq_scheduler.
  rewrite Hp. cbn [mbind outcome_bind]. rewrite Hpost. cbn [mbind outcome_bind].
  unfold try_outcome. destruct (_ ≫= _); eexists; reflexivity.
Qed.

(** A body that is not JSON gives the failure message. *)
Lemma call_groq_scheduler_bad_json (str_other : cell -> string)
    (http_post : request -> outcome response) (df : DataFrame) (groq_api_key prompt : string)
    (e : exn) :
  full_prompt str_other df = Ok prompt ->
  http_post (groq_request prompt groq_api_key) = Ok (Response (Raise e)) ->
  call_groq_scheduler str_other http_post df groq_api_key
  = Ok (JString ("❌ GROQ request failed: " +:+ exn_msg e)).
Proof.
  intros Hp Hpost. unfold call_groq_scheduler.
  rewrite Hp. cbn [mbind outcome_bind]. rewrite Hpost. reflexivity.
Qed.

(** An exception of [requests.post] leaves the function as it is. *)
Lemma call_groq_scheduler_post_raises (str_other : cell -> string)
    (http_post : request -> outcome response) (df : DataFrame) (groq_api_key prompt : string)
    (e : exn) :
  full_prompt str_other df = Ok prompt ->
  http_post (groq_request prompt groq_api_key) = Raise e ->
  call_groq_scheduler str_other http_post df groq_api_key = Raise e.
Proof.
  intros Hp Hpost. unfold call_groq_scheduler.
  rewrite Hp. cbn [mbind outcome_bind]. rewrite Hpost. reflexivity.
Qed.

(** ** The claims on the example tables *)

Example strptime_HM_samples :
  strptime_HM "09:00" = Some (HourMinute 9 0) /\
  strptime_HM "9:5" = Some (HourMinute 9 5) /\
  strptime_HM "23:59" = Some (HourMinute 23 59) /\
  strptime_HM "24:00" = None /\
  strptime_HM "12:60" = None /\
  strptime_HM "12:345" = None /\
  strptime_HM " 12:30" = None /\
  strptime_HM "" = None.
Proof. repeat split; reflexivity. Qed.

Example enrich_morning_readings :
  enrich 0%nat {[0%nat := morning_readings]} = (Ok tt, {[0%nat := morning_schedule]}).
Proof. vm_compute. reflexivity. Qed.

(** The contract's test: rows at 09:00 and 13:00, and 09:05 on the clock. *)
Example nearest_of_morning_schedule :
  (get_nearest_time_brightness five_past_nine 0%nat {[0%nat := morning_schedule]}).1
  = Ok (VCell (CStr "09:00"), VCell (CNum (PyInt 80))).
Proof. vm_compute. reflexivity. Qed.

(** 09:10 and 9:00 are both five minutes from 09:05; the first one wins. *)
Example nearest_of_tied_schedule :
  (get_nearest_time_brightness five_past_nine 0%nat {[0%nat := tied_schedule]}).1
  = Ok (VCell (CStr "09:10"), VCell (CNum (PyInt 40))).
Proof. vm_compute. reflexivity. Qed.

Example prompt_of_morning_schedule :
  full_prompt no_other morning_schedule
  = Ok ("You are an intelligent office lighting assistant. Based on the data below, " +:+
        "generate a natural-language schedule describing when and why lights change brightness:" +:+
        newline +:+ newline +:+
        "Time: 09:00, Daylight: 200 lux, Brightness: 80%" +:+ newline +:+
        "Time: 13:00, Daylight: 650 lux, Brightness: 10%" +:+
        newline +:+ newline +:+ "Format:" +:+ newline +:+ "Hour: Brightness % - Reason").
Proof. vm_compute. reflexivity. Qed.

(** In a table of numbers only, [iterrows] hands out the integers of a
    row as floats. *)
Example iterrows_numeric_schedule :
  iterrows numeric_schedule
  = [(0%nat,
      <["time" := CNum (PyFloat (Float64.of_Z 900))]>
        (<["lux" := CNum (PyFloat (Float64.of_Z 200))]>
           (<["brightness" := CNum (PyFloat (Float64.of_Z 80))]>
              (<["energy_kwh" := CNum (PyFloat (Float64.literal 32 3))]> ∅))))].
Proof. vm_compute. reflexivity. Qed.

Example pretty_negative : py_str no_other (CNum (PyInt (-15))) = "-15".
Proof. reflexivity. Qed.

(** C1 fails on the code: [requests.post] stands before the [try], so an
    exception of the transport is not turned into a message; with the
    network down the call raises [ConnectionError]. *)
Theorem call_groq_scheduler_network_down :
  call_groq_scheduler no_other network_down morning_schedule "gsk_example"
  = Raise (Exn ConnectionError "Connection refused").
Proof. vm_compute. reflexivity. Qed.


(** The tied schedule at 09:05. *)
Lemma nearest_time_first_minimum_witness :
  exists before row after t,
    tied_rows = before ++ row :: after /\
    parsed_time_of row = Some t /\
    (get_nearest_time_brightness five_past_nine 0%nat {[0%nat := tied_schedule]}).1
    = Ok (VCell (cell_at row "time"), VCell (cell_at row "brightness")) /\
    Forall (fun row' => exists t', parsed_time_of row' = Some t' /\
                                   distance five_past_nine t < distance five_past_nine t')
           before /\
    Forall (fun row' => exists t', parsed_time_of row' = Some t' /\
                                   distance five_past_nine t <= distance five_past_nine t')
           after.
Proof.
  apply (nearest_time_first_minimum five_past_nine {[0%nat := tied_schedule]} 0%nat
           enriched_columns tied_rows).
  - reflexivity.
  - apply (bool_decide_unpack _). vm_compute. reflexivity.
  - apply (bool_decide_unpack _). vm_compute. reflexivity.
  - discriminate.
  - repeat constructor; eexists; vm_compute; reflexivity.
Defined.


(** The morning readings at two addresses in two stores. *)
Lemma enrichment_deterministic_witness :
  (morning_readings = morning_readings ->
   (enrich 0%nat {[0%nat := morning_readings]}).1 = (enrich 5%nat readings_elsewhere).1 /\
   (enrich 0%nat {[0%nat := morning_readings]}).2 !! 0%nat
   = (enrich 5%nat readings_elsewhere).2 !! 5%nat) /\
  (forall out1 out2 i j lr1 lr2 o1 o2,
     (enrich 0%nat {[0%nat := morning_readings]}).1 = Ok tt ->
     (enrich 5%nat readings_elsewhere).1 = Ok tt ->
     (enrich 0%nat {[0%nat := morning_readings]}).2 !! 0%nat = Some out1 ->
     (enrich 5%nat readings_elsewhere).2 !! 5%nat = Some out2 ->
     df_rows morning_readings !! i = Some lr1 -> df_rows morning_readings !! j = Some lr2 ->
     df_rows out1 !! i = Some o1 -> df_rows out2 !! j = Some o2 ->
     cell_at lr1.2 "lux" = cell_at lr2.2 "lux" ->
     cell_at o1.2 "brightness" = cell_at o2.2 "brightness" /\
     cell_at o1.2 "energy_kwh" = cell_at o2.2 "energy_kwh" /\
     cell_at o1.2 "cost" = cell_at o2.2 "cost") /\
  (forall a b : num,
     (forall k, exceeds a k <-> exceeds b k) ->
     evaluate_brightness a = evaluate_brightness b).
Proof.
  apply (enrichment_deterministic {[0%nat := morning_readings]} readings_elsewhere
           0%nat 5%nat morning_readings morning_readings).
  - reflexivity.
  - reflexivity.
Defined.

(** The prompt of the morning schedule. *)
Lemma prompt_emitted_to_narrator_witness :
  length (iterrows morning_schedule) = length (df_rows morning_schedule) /\
  (Exists (fun lr => exists s, cell_at lr.2 "time" = CStr s) (df_rows morning_schedule) ->
   iterrows morning_schedule = df_rows morning_schedule) /\
  full_prompt no_other morning_schedule
  = Ok (spec_prompt no_other (iterrows morning_schedule)) /\
  req_content (groq_request (spec_prompt no_other (iterrows morning_schedule)) "gsk_example")
  = spec_prompt no_other (iterrows morning_schedule) /\
  (forall http_post http_post' : request -> outcome response,
     http_post (groq_request (spec_prompt no_other (iterrows morning_schedule)) "gsk_example")
     = http_post' (groq_request (spec_prompt no_other (iterrows morning_schedule)) "gsk_example") ->
     call_groq_scheduler no_other http_post morning_schedule "gsk_example"
     = call_groq_scheduler no_other http_post' morning_schedule "gsk_example") /\
  call_groq_scheduler no_other echo_server morning_schedule "gsk_example"
  = Ok (JString (spec_prompt no_other (iterrows morning_schedule))).
Proof.
  apply (prompt_emitted_to_narrator no_other morning_schedule "gsk_example").
  - apply (bool_decide_unpack _). vm_compute. reflexivity.
  - apply (bool_decide_unpack _). vm_compute. reflexivity.
  - apply (bool_decide_unpack _). vm_compute. reflexivity.
Defined.

(** * Further properties of the code *)

(** ** More on the matcher *)















(** ** More on the brightness and the enrichment *)

(** X3: more daylight never gives a brighter lamp: when [b] exceeds every
    threshold that [a] exceeds, the brightness for [b] is at most the one
    for [a]. *)
Theorem evaluate_brightness_antitone (a b : num) :
  (forall k, exceeds a k -> exceeds b k) ->
  evaluate_brightness b <= evaluate_brightness a.
Proof.
  intros Hab.
  assert (Hgt : forall k, py_gt a (PyInt k) = true -> py_gt b (PyInt k) = true).
  { intros k H. apply py_gt_exceeds, Hab, py_gt_exceeds, H. }
  unfold evaluate_brightness.
  destruct (py_gt a (PyInt 500)) eqn:Ha5.
  - rewrite (Hgt 500 Ha5). lia.
  - destruct (py_gt a (PyInt 300)) eqn:Ha3.
    + rewrite (Hgt 300 Ha3). destruct (py_gt b (PyInt 500)); lia.
    + destruct (py_gt b (PyInt 500)); [lia|]. destruct (py_gt b (PyInt 300)); lia.
Qed.

Lemma evaluate_brightness_antitone_witness :
  evaluate_brightness (PyInt 650) <= evaluate_brightness (PyInt 200).
Proof. apply (evaluate_brightness_antitone (PyInt 200) (PyInt 650)). simpl. lia. Defined.

Lemma brightness_of_numeric (c : cell) :
  numeric_cell c = true ->
  exists n, cell_num c = Ok n /\
            brightness_of c = Ok (CNum (PyInt (evaluate_brightness n))).
Proof.
  destruct c; try discriminate; intros _; eexists; split; reflexivity.
Qed.

Lemma brightness_of_raises (c : cell) (e : exn) :
  brightness_of c = Raise e -> numeric_cell c = false /\ exn_cls e = TypeError.
Proof.
  destruct c; try discriminate; intros H; injection H as <-; split; reflexivity.
Qed.

Lemma derived_cells_number (c : cell) :
  numeric_cell c = true ->
  brightness_of c = Ok (derived_brightness c) /\
  energy_of (derived_brightness c) = Ok (derived_energy c) /\
  cost_of (derived_energy c) = Ok (derived_cost c).
Proof.
  intros Hc. destruct (brightness_of_numeric c Hc) as (n & _ & Hb).
  unfold derived_cost, derived_energy, derived_brightness. rewrite Hb. cbn [ok_or].
  destruct (energy_and_cost_of_brightness n) as (kwh & cost & -> & Hcost & _).
  cbn [ok_or]. rewrite Hcost. repeat split.
Qed.

Lemma series_apply_raises (f : cell -> outcome cell) (s : Series) (e : exn) :
  series_apply f s = Raise e -> exists lv, lv ∈ s /\ f lv.2 = Raise e.
Proof.
  unfold series_apply. induction s as [|lv s IH]; simpl; [discriminate|].
  destruct (f lv.2) as [v|e'] eqn:Hf; cbn [mbind outcome_bind].
  - destruct (mapM_outcome _ s) as [ys|e'] eqn:Hs; [discriminate|].
    intros H. injection H as ->. destruct (IH eq_refl) as (lv' & Hin & Hlv').
    exists lv'. split; [right; exact Hin | exact Hlv'].
  - intros H. injection H as ->. exists lv. split; [left | exact Hf].
Qed.

Lemma series_apply_all_ok (f : cell -> outcome cell) (s out : Series) :
  series_apply f s = Ok out -> Forall (fun lv => exists v, f lv.2 = Ok v) s.
Proof.
  unfold series_apply. revert out. induction s as [|lv s IH]; intros out; simpl; [constructor|].
  destruct (f lv.2) as [v|e] eqn:Hf; cbn [mbind outcome_bind]; [|discriminate].
  destruct (mapM_outcome _ s) as [ys|e] eqn:Hs; [|discriminate].
  intros _. constructor; [eauto | eapply IH; reflexivity].
Qed.

(** The frame that the enrichment leaves of a frame of numbers. *)
Lemma enrich_frame_numeric (df : DataFrame) :
  "lux" ∈ df_columns df ->
  Forall (fun lr => numeric_cell (cell_at lr.2 "lux") = true) (df_rows df) ->
  enrich_frame df
  = (Ok tt, Frame (enriched_columns_of (df_columns df))
                  ((fun lr => (lr.1, derived_row lr.2)) <$> df_rows df)).
Proof.
  intros Hlux Hnum. rewrite Forall_forall in Hnum.
  unfold enrich_frame.
  rewrite getitem_frame by exact Hlux. cbn [mbind outcome_bind].
  rewrite (apply_rowwise fst _ _ _ (fun lr => derived_brightness (cell_at lr.2 "lux"))).
  2:{ intros lr Hlr. apply derived_cells_number, Hnum, Hlr. }
  rewrite setitem_frame.
  rewrite (getitem_rowwise fst) by apply add_column_elem.
  cbn [mbind outcome_bind].
  rewrite (apply_rowwise fst _ _ _ (fun lr => derived_energy (cell_at lr.2 "lux"))).
  2:{ intros lr Hlr. unfold cell_at at 1. rewrite lookup_insert_eq. simpl.
      apply derived_cells_number, Hnum, Hlr. }
  rewrite (setitem_rowwise fst).
  rewrite (getitem_rowwise fst) by apply add_column_elem.
  cbn [mbind outcome_bind].
  rewrite (apply_rowwise fst _ _ _ (fun lr => derived_cost (cell_at lr.2 "lux"))).
  2:{ intros lr Hlr. unfold cell_at at 1. rewrite lookup_insert_eq. simpl.
      apply derived_cells_number, Hnum, Hlr. }
  rewrite (setitem_rowwise fst). reflexivity.
Qed.

(** When the enrichment raises, it raises at the first of its three
    steps. *)
Lemma enrich_frame_raises (df : DataFrame) (e : exn) :
  (enrich_frame df).1 = Raise e ->
  (enrich_frame df).2 = df /\
  (if decide ("lux" ∈ df_columns df)
   then exn_cls e = TypeError /\
        Exists (fun lr => numeric_cell (cell_at lr.2 "lux") = false) (df_rows df)
   else e = Exn KeyError (quoted "lux")).
Proof.
  destruct (decide ("lux" ∈ df_columns df)) as [Hlux|Hlux].
  - destruct (decide (Forall (fun lr => numeric_cell (cell_at lr.2 "lux") = true) (df_rows df)))
      as [Hnum|Hnum].
    { rewrite (enrich_frame_numeric df Hlux Hnum). discriminate. }
    unfold enrich_frame. rewrite getitem_frame by exact Hlux. cbn [mbind outcome_bind].
    destruct (series_apply brightness_of _) as [s|e'] eqn:Hs.
    + exfalso. apply Hnum, Forall_forall. intros lr Hlr.
      apply series_apply_all_ok in Hs. rewrite Forall_forall in Hs.
      destruct (Hs (lr.1, cell_at lr.2 "lux")) as [v Hv].
      { apply (list_elem_of_fmap_2 (fun lr => (lr.1, cell_at lr.2 "lux"))). exact Hlr. }
      simpl in Hv. destruct (cell_at lr.2 "lux"); try discriminate; reflexivity.
    + cbn [fst snd]. intros H. injection H as ->. split; [reflexivity|].
      apply series_apply_raises in Hs as (lv & Hin & Hlv).
      apply brightness_of_raises in Hlv as [Hnot Hcls]. split; [exact Hcls|].
      apply list_elem_of_fmap in Hin as (lr & -> & Hlr).
      apply Exists_exists. exists lr. split; [exact Hlr | exact Hnot].
  - unfold enrich_frame, frame_getitem. rewrite decide_False by exact Hlux.
    cbn [mbind outcome_bind fst snd]. intros H. injection H as <-. split; reflexivity.
Qed.

(** X4: the enrichment is all or nothing. It succeeds exactly on a table
    with a [lux] column that holds numbers only; when it raises, a
    [KeyError] for a table without the column and a [TypeError] for a
    reading that is not a number, the table and all other objects are as
    they were: no column of the three has been added. *)
Theorem enrich_all_or_nothing (h : gmap ref DataFrame) (r : ref) (df : DataFrame) :
  h !! r = Some df ->
  ((enrich r h).1 = Ok tt <->
   "lux" ∈ df_columns df /\
   Forall (fun lr => numeric_cell (cell_at lr.2 "lux") = true) (df_rows df)) /\
  (forall e, (enrich r h).1 = Raise e ->
     (enrich r h).2 = h /\
     (if decide ("lux" ∈ df_columns df) then exn_cls e = TypeError
      else e = Exn KeyError (quoted "lux"))).
Proof.
  intros Hr. rewrite (enrich_run h r df Hr). cbn [fst snd]. split.
  - split.
    + intros Hok.
      destruct (decide ("lux" ∈ df_columns df /\
                        Forall (fun lr => numeric_cell (cell_at lr.2 "lux") = true) (df_rows df)))
        as [H|H]; [exact H|exfalso].
      destruct (enrich_frame df).1 as [[]|e] eqn:He; [|discriminate].
      unfold enrich_frame in He.
      destruct (decide ("lux" ∈ df_columns df)) as [Hlux|Hlux].
      * rewrite getitem_frame in He by exact Hlux. cbn [mbind outcome_bind] in He.
        destruct (series_apply brightness_of _) as [s|e'] eqn:Hs; [|discriminate].
        apply H. split; [exact Hlux|]. apply Forall_forall. intros lr Hlr.
        apply series_apply_all_ok in Hs. rewrite Forall_forall in Hs.
        destruct (Hs (lr.1, cell_at lr.2 "lux")) as [v Hv].
        { apply (list_elem_of_fmap_2 (fun lr => (lr.1, cell_at lr.2 "lux"))). exact Hlr. }
        simpl in Hv. destruct (cell_at lr.2 "lux"); try discriminate; reflexivity.
      * unfold frame_getitem in He. rewrite decide_False in He by exact Hlux. discriminate.
    + intros [Hlux Hnum]. rewrite (enrich_frame_numeric df Hlux Hnum). reflexivity.
  - intros e He. apply enrich_frame_raises in He as [-> Hcls]. split.
    + apply insert_id, Hr.
    + destruct (decide ("lux" ∈ df_columns df)); [apply Hcls | exact Hcls].
Qed.

Lemma enrich_all_or_nothing_witness :
  (enrich 0%nat {[0%nat := morning_readings]}).1 = Ok tt.
Proof.
  apply (enrich_all_or_nothing {[0%nat := morning_readings]} 0%nat morning_readings);
    [reflexivity|].
  split; [apply (bool_decide_unpack _); vm_compute; reflexivity|].
  repeat constructor.
Defined.

Lemma derived_cells_triple (c : cell) :
  numeric_cell c = true ->
  exists n, cell_num c = Ok n /\
    derived_brightness c = CNum (PyInt (evaluate_brightness n)) /\
    (derived_brightness c, derived_energy c, derived_cost c) ∈ brightness_energy_cost.
Proof.
  intros Hc. destruct (brightness_of_numeric c Hc) as (n & Hn & Hb).
  exists n. split; [exact Hn|].
  unfold derived_cost, derived_energy, derived_brightness. rewrite Hb. cbn [ok_or].
  split; [reflexivity|].
  destruct (energy_and_cost_of_brightness n)
    as (kwh & cost & -> & Hcost & [(-> & -> & ->) | [(-> & -> & ->) | (-> & -> & ->)]]);
    cbn [ok_or]; rewrite Hcost; cbn [ok_or]; unfold brightness_energy_cost.
  - left.
  - right. left.
  - right. right. left.
Qed.

(** X5: on a table whose [lux] column holds numbers the enrichment
    changes this table alone; it adds the columns [brightness],
    [energy_kwh] and [cost] after the others (or overwrites them), keeps
    the rows, their labels and their other cells, and gives each row the
    brightness of its lux with the energy and cost of that brightness:
    (80, 0.032, 0.0048), (40, 0.016, 0.0024) or (10, 0.004, 0.0006). *)
Theorem enrich_numeric_rows (h : gmap ref DataFrame) (r : ref) (df : DataFrame) :
  h !! r = Some df -> "lux" ∈ df_columns df ->
  Forall (fun lr => numeric_cell (cell_at lr.2 "lux") = true) (df_rows df) ->
  exists out,
    enrich r h = (Ok tt, <[r := out]> h) /\
    df_columns out = enriched_columns_of (df_columns df) /\
    Forall2 (fun lr lr' =>
               lr'.1 = lr.1 /\
               (forall c, c ∉ ["brightness"; "energy_kwh"; "cost"] -> lr'.2 !! c = lr.2 !! c) /\
               exists lux, cell_num (cell_at lr.2 "lux") = Ok lux /\
                 cell_at lr'.2 "brightness" = CNum (PyInt (evaluate_brightness lux)) /\
                 (cell_at lr'.2 "brightness", cell_at lr'.2 "energy_kwh", cell_at lr'.2 "cost")
                 ∈ brightness_energy_cost)
            (df_rows df) (df_rows out).
Proof.
  intros Hr Hlux Hnum.
  eexists. rewrite (enrich_run h r df Hr), (enrich_frame_numeric df Hlux Hnum).
  split; [reflexivity|]. split; [reflexivity|]. cbn [df_rows].
  apply Forall2_fmap_r, Forall_Forall2_diag.
  eapply Forall_impl; [exact Hnum|]. intros lr Hc. cbn beta in Hc. cbn [fst snd].
  split; [reflexivity|]. split.
  - intros c Hc'. unfold derived_row. cbn [snd].
    rewrite !lookup_insert_ne; [reflexivity|..]; intros <-; apply Hc'; set_solver.
  - cbn [snd]. destruct (derived_row_cells lr.2) as (-> & -> & ->).
    apply derived_cells_triple, Hc.
Qed.

Lemma enrich_numeric_rows_witness :
  exists out,
    enrich 0%nat {[0%nat := morning_readings]} = (Ok tt, <[0%nat := out]> {[0%nat := morning_readings]}) /\
    df_columns out = enriched_columns.
Proof.
  destruct (enrich_numeric_rows {[0%nat := morning_readings]} 0%nat morning_readings)
    as (out & Hrun & Hcols & _).
  - reflexivity.
  - apply (bool_decide_unpack _). vm_compute. reflexivity.
  - repeat constructor.
  - exists out. split; [exact Hrun | exact Hcols].
Defined.

(** ** The pipeline of [main]: enrichment, then the matcher *)





(** ** The clock *)





(** ** More on the narrator *)

(** X8: what the narrator makes of the server's answer, once the prompt
    is built and [requests.post] has returned. From an object whose
    [choices] is a list that begins with an object holding a [message]
    with a [content] it returns that content; from an object without
    [choices] it returns the warning; an empty list of choices, a first
    choice without [message] and a body that is not JSON give the
    failure message with the text of the exception. *)
Theorem call_groq_scheduler_answers (str_other : cell -> string)
    (http_post : request -> outcome response) (df : DataFrame)
    (groq_api_key prompt : string) :
  full_prompt str_other df = Ok prompt ->
  let result := call_groq_scheduler str_other http_post df groq_api_key in
  let answer := http_post (groq_request prompt groq_api_key) in
  (forall members choice choices message content,
     answer = Ok (Response (Ok (JObject members))) ->
     dict_get "choices" members = Some (JArray (JObject choice :: choices)) ->
     dict_get "message" choice = Some (JObject message) ->
     dict_get "content" message = Some content ->
     result = Ok content) /\
  (forall members,
     answer = Ok (Response (Ok (JObject members))) ->
     dict_get "choices" members = None ->
     result = Ok (JString "⚠️ GROQ did not return a valid response.")) /\
  (forall members,
     answer = Ok (Response (Ok (JObject members))) ->
     dict_get "choices" members = Some (JArray []) ->
     result = Ok (JString "❌ GROQ request failed: list index out of range")) /\
  (forall members choice choices,
     answer = Ok (Response (Ok (JObject members))) ->
     dict_get "choices" members = Some (JArray (JObject choice :: choices)) ->
     dict_get "message" choice = None ->
     result = Ok (JString "❌ GROQ request failed: 'message'")) /\
  (forall e,
     answer = Ok (Response (Raise e)) ->
     result = Ok (JString ("❌ GROQ request failed: " +:+ exn_msg e))).
Proof.
  intros Hp result answer. unfold result, call_groq_scheduler.
  rewrite Hp. cbn [mbind outcome_bind]. fold answer.
  repeat split.
  - intros members choice choices message content -> Hc Hm Hcontent.
    cbn [mbind outcome_bind response_json py_in json_getitem].
    rewrite Hc. cbn [mbind outcome_bind json_first json_getitem].
    rewrite bool_decide_eq_true_2 by eauto.
    rewrite Hm. cbn [mbind outcome_bind json_getitem]. rewrite Hcontent. reflexivity.
  - intros members -> Hc.
    cbn [mbind outcome_bind response_json py_in]. rewrite Hc.
    rewrite bool_decide_eq_false_2 by (intros [? ?]; discriminate). reflexivity.
  - intros members -> Hc.
    cbn [mbind outcome_bind response_json py_in json_getitem]. rewrite Hc.
    rewrite bool_decide_eq_true_2 by eauto. reflexivity.
  - intros members choice choices -> Hc Hm.
    cbn [mbind outcome_bind response_json py_in json_getitem]. rewrite Hc.
    rewrite bool_decide_eq_true_2 by eauto.
    cbn [mbind outcome_bind json_first json_getitem]. rewrite Hm. reflexivity.
  - intros e ->. reflexivity.
Qed.

Lemma call_groq_scheduler_answers_witness :
  call_groq_scheduler no_other (answers (JObject [("error", JString "rate limit")]))
    morning_schedule "gsk_example"
  = Ok (JString "⚠️ GROQ did not return a valid response.").
Proof.
  destruct (call_groq_scheduler_answers no_other
              (answers (JObject [("error", JString "rate limit")]))
              morning_schedule "gsk_example" _ eq_refl) as (_ & Hwarn & _).
  apply (Hwarn [("error", JString "rate limit")]); reflexivity.
Defined.

Lemma mapM_outcome_head_raises {A B} (f : A -> outcome B) (x : A) (l : list A) (e : exn) :
  f x = Raise e -> mapM_outcome f (x :: l) = Raise e.
Proof. intros H. simpl. rewrite H. reflexivity. Qed.

(** X9: the prompt is built before the request and outside the [try]. On
    a table that has a row and lacks one of the columns [time], [lux] and
    [brightness] the narrator raises the [KeyError] of the first one that
    is missing, whatever the network would do, and no request is made;
    on a table without rows no column is looked up and the prompt
    without readings is what is sent. *)
Theorem call_groq_scheduler_missing_column (str_other : cell -> string)
    (http_post : request -> outcome response) (df : DataFrame) (groq_api_key : string) :
  (df_rows df ≠ [] ->
   ("time" ∉ df_columns df ->
    call_groq_scheduler str_other http_post df groq_api_key
    = Raise (Exn KeyError (quoted "time"))) /\
   ("time" ∈ df_columns df -> "lux" ∉ df_columns df ->
    call_groq_scheduler str_other http_post df groq_api_key
    = Raise (Exn KeyError (quoted "lux"))) /\
   ("time" ∈ df_columns df -> "lux" ∈ df_columns df -> "brightness" ∉ df_columns df ->
    call_groq_scheduler str_other http_post df groq_api_key
    = Raise (Exn KeyError (quoted "brightness")))) /\
  (df_rows df = [] ->
   full_prompt str_other df = Ok (prompt_preamble +:+ prompt_format_hint)).
Proof.
  split.
  - intros Hrows.
    assert (Hit : exists lr rest, iterrows df = lr :: rest).
    { pose proof (iterrows_length df) as Hlen.
      destruct (iterrows df) as [|lr rest]; [|eauto].
      destruct (df_rows df); [congruence | discriminate]. }
    destruct Hit as (lr & rest & Hit).
    unfold call_groq_scheduler, full_prompt. rewrite Hit.
    repeat split.
    + intros Ht. rewrite (mapM_outcome_head_raises _ _ _ (Exn KeyError (quoted "time")));
        [reflexivity|].
      unfold prompt_line, row_getitem.
      destruct (decide ("time" ∈ df_columns df)); [contradiction | reflexivity].
    + intros Ht Hl. rewrite (mapM_outcome_head_raises _ _ _ (Exn KeyError (quoted "lux")));
        [reflexivity|].
      unfold prompt_line, row_getitem.
      destruct (decide ("time" ∈ df_columns df)); [|contradiction].
      destruct (decide ("lux" ∈ df_columns df)); [contradiction | reflexivity].
    + intros Ht Hl Hb.
      rewrite (mapM_outcome_head_raises _ _ _ (Exn KeyError (quoted "brightness")));
        [reflexivity|].
      unfold prompt_line, row_getitem.
      destruct (decide ("time" ∈ df_columns df)); [|contradiction].
      destruct (decide ("lux" ∈ df_columns df)); [|contradiction].
      destruct (decide ("brightness" ∈ df_columns df)); [contradiction | reflexivity].
  - intros Hrows. unfold full_prompt, iterrows, frame_cells. rewrite Hrows. reflexivity.
Qed.

(** ** The times that parse *)

Lemma digit_of_range (c x : Z) : digit_of c = Some x -> 0 <= x <= 9.
Proof.
  unfold digit_of.
  destruct (List.find _ decimal_zeros) as [z|] eqn:Hz; [|discriminate].
  cbn [mbind option_bind]. intros H. injection H as <-.
  apply find_some in Hz as [_ Hz]. apply andb_prop in Hz as [H1 H2].
  apply Z.leb_le in H1. apply Z.ltb_lt in H2. lia.
Qed.

Lemma any_digit_range (s r : string) (x : Z) : any_digit s = Some (x, r) -> 0 <= x <= 9.
Proof.
  unfold any_digit.
  destruct (code_point s) as [[c r']|]; [|discriminate]. cbn [mbind option_bind].
  destruct (digit_of c) as [d|] eqn:Hd; [|discriminate]. cbn [mbind option_bind].
  intros H. injection H as <- _. apply (digit_of_range c), Hd.
Qed.

Lemma digit_between_range (lo hi : Z) (s r : string) (x : Z) :
  digit_between lo hi s = Some (x, r) -> lo <= x <= hi.
Proof.
  unfold digit_between. destruct s as [|a s]; [discriminate|].
  destruct (lo <=? _) eqn:H1; [|discriminate].
  destruct (_ <=? hi) eqn:H2; [|discriminate].
  cbn [andb]. intros H. injection H as <- _.
  apply Z.leb_le in H1, H2. lia.
Qed.

Lemma match_H_range (s r : string) (h : Z) : match_H s = Some (h, r) -> 0 <= h < 24.
Proof.
  unfold match_H, first_match.
  destruct (match_H_20s s) as [[h' r']|] eqn:H20.
  { intros H. injection H as -> ->. unfold match_H_20s in H20.
    destruct (digit_between 2 2 s) as [[x r1]|] eqn:Hx; [|discriminate].
    cbn [mbind option_bind] in H20.
    destruct (digit_between 0 3 r1) as [[y r2]|] eqn:Hy; [|discriminate].
    cbn [mbind option_bind] in H20.
    destruct (colon_then r2); [|discriminate]. cbn [mbind option_bind] in H20.
    injection H20 as <- _.
    apply digit_between_range in Hx, Hy. lia. }
  destruct (match_H_two s) as [[h' r']|] eqn:H2.
  { intros H. injection H as -> ->. unfold match_H_two in H2.
    destruct (digit_between 0 1 s) as [[x r1]|] eqn:Hx; [|discriminate].
    cbn [mbind option_bind] in H2.
    destruct (any_digit r1) as [[y r2]|] eqn:Hy; [|discriminate].
    cbn [mbind option_bind] in H2.
    destruct (colon_then r2); [|discriminate]. cbn [mbind option_bind] in H2.
    injection H2 as <- _.
    apply digit_between_range in Hx. apply any_digit_range in Hy. lia. }
  unfold match_H_one. intros H.
  destruct (any_digit s) as [[x r1]|] eqn:Hx; [|discriminate].
  cbn [mbind option_bind] in H.
  destruct (colon_then r1); [|discriminate]. cbn [mbind option_bind] in H.
  injection H as <- _. apply any_digit_range in Hx. lia.
Qed.

Lemma match_M_range (s r : string) (m : Z) : match_M s = Some (m, r) -> 0 <= m < 60.
Proof.
  unfold match_M, first_match.
  destruct (digit_between 0 5 s) as [[x r1]|] eqn:Hx; cbn [mbind option_bind].
  - destruct (any_digit r1) as [[y r2]|] eqn:Hy; cbn [mbind option_bind].
    + intros H. injection H as <- _.
      apply digit_between_range in Hx. apply any_digit_range in Hy. lia.
    + intros H. apply any_digit_range in H. lia.
  - intros H. apply any_digit_range in H. lia.
Qed.

Lemma strptime_HM_range (s : string) (t : time_of_day) :
  strptime_HM s = Some t -> 0 <= t_hour t < 24 /\ 0 <= t_minute t < 60.
Proof.
  unfold strptime_HM.
  destruct (match_H s) as [[h r]|] eqn:Hh; [|discriminate].
  destruct (match_M r) as [[m [|? ?]]|] eqn:Hm; try discriminate.
  intros H. injection H as <-. simpl.
  split; [eapply match_H_range | eapply match_M_range]; eassumption.
Qed.

Lemma parses_to_spec (s : string) (h m : Z) :
  parses_to s h m = true -> strptime_HM s = Some (HourMinute h m).
Proof.
  unfold parses_to. destruct (strptime_HM s) as [[h' m']|]; [|discriminate].
  simpl. intros H. apply andb_prop in H as [Hh Hm].
  apply Z.eqb_eq in Hh, Hm. subst. reflexivity.
Qed.

Lemma strptime_HM_canonical :
  forallb (fun h =>
    forallb (fun m =>
      parses_to (two_digits h +:+ ":" +:+ two_digits m) h m
      && parses_to (pretty h +:+ ":" +:+ pretty m) h m)
      (seqZ 0 60))
    (seqZ 0 24) = true.
Proof. vm_compute. reflexivity. Qed.

(** Every time that parses is a time of day, with an hour below 24 and
    a minute below 60, and is less than a day from the clock; and every
    time of day, written with two ASCII digits as [strftime("%H:%M")]
    writes it or without the leading zeros, parses to itself. *)
Lemma strptime_HM_times :
  (forall s t, strptime_HM s = Some t ->
     0 <= t_hour t < 24 /\ 0 <= t_minute t < 60 /\
     forall now, 0 <= t_hour (dt_time now) < 24 -> 0 <= t_minute (dt_time now) < 60 ->
                 distance now t < 86400) /\
  (forall h m, 0 <= h < 24 -> 0 <= m < 60 ->
     strptime_HM (two_digits h +:+ ":" +:+ two_digits m) = Some (HourMinute h m) /\
     strptime_HM (pretty h +:+ ":" +:+ pretty m) = Some (HourMinute h m)).
Proof.
  split.
  - intros s t Hs. apply strptime_HM_range in Hs as [Hh Hm].
    split; [exact Hh|]. split; [exact Hm|].
    intros now Hnh Hnm. unfold distance, minute_of_day. lia.
  - intros h m Hh Hm.
    pose proof strptime_HM_canonical as H.
    rewrite forallb_forall in H.
    assert (Hin : In h (seqZ 0 24)) by (apply list_elem_of_In, elem_of_seqZ; lia).
    specialize (H h Hin). rewrite forallb_forall in H.
    assert (Hin' : In m (seqZ 0 60)) by (apply list_elem_of_In, elem_of_seqZ; lia).
    specialize (H m Hin'). apply andb_prop in H as [H1 H2].
    split; apply parses_to_spec; assumption.
Qed.

(** ** Loading the readings *)

Lemma positions_from_spec (k : nat) (columns : list str) (name : str) (i : nat) :
  i ∈ positions_from k columns name <->
  (k <= i)%nat /\ columns !! (i - k)%nat = Some name.
Proof.
  revert k. induction columns as [|c columns IH]; intros k; simpl.
  - rewrite elem_of_nil. split; [tauto|]. intros [_ H]. discriminate.
  - assert (Hrest : i ∈ positions_from (S k) columns name <->
                    (k < i)%nat /\ (c :: columns) !! (i - k)%nat = Some name).
    { rewrite IH. split.
      - intros [Hk Hi]. split; [lia|].
        replace (i - k)%nat with (S (i - S k)) by lia. exact Hi.
      - intros [Hk Hi]. split; [lia|].
        replace (i - k)%nat with (S (i - S k)) in Hi by lia. exact Hi. }
    destruct (decide (c = name)) as [->|Hc].
    + rewrite elem_of_cons, Hrest. split.
      * intros [->|[Hk Hi]]; [|split; [lia|exact Hi]].
        split; [lia|]. rewrite Nat.sub_diag. reflexivity.
      * intros [Hk Hi]. destruct (decide (i = k)) as [->|Hne]; [auto|].
        right. split; [lia | exact Hi].
    + rewrite Hrest. split.
      * intros [Hk Hi]. split; [lia | exact Hi].
      * intros [Hk Hi]. split; [|exact Hi].
        destruct (decide (i = k)) as [->|Hne]; [|lia].
        rewrite Nat.sub_diag in Hi. simpl in Hi. congruence.
Qed.

Lemma positions_from_lower (k : nat) (columns : list str) (name : str) :
  Forall (fun i => (k <= i)%nat) (positions_from k columns name).
Proof.
  apply Forall_forall. intros i Hi. apply positions_from_spec in Hi. tauto.
Qed.

Lemma positions_from_NoDup (k : nat) (columns : list str) (name : str) :
  NoDup (positions_from k columns name).
Proof.
  revert k. induction columns as [|c columns IH]; intros k; simpl; [constructor|].
  destruct (decide (c = name)); [|apply IH].
  constructor; [|apply IH].
  intros Hin. apply positions_from_spec in Hin. lia.
Qed.

Lemma positions_unique (columns : list str) (name : str) (i : nat) :
  columns !! i = Some name ->
  (forall i', columns !! i' = Some name -> i' = i) ->
  positions_from 0 columns name = [i].
Proof.
  intros Hi Huniq.
  pose proof (positions_from_NoDup 0 columns name) as Hnd.
  assert (Hall : forall x, x ∈ positions_from 0 columns name <-> x = i).
  { intros x. rewrite positions_from_spec, Nat.sub_0_r. split.
    - intros [_ Hx]. apply Huniq, Hx.
    - intros ->. split; [lia | exact Hi]. }
  destruct (positions_from 0 columns name) as [|x l].
  - exfalso. apply (elem_of_nil i), Hall. reflexivity.
  - assert (x = i) as -> by (apply Hall; left).
    destruct l as [|y l]; [reflexivity|].
    assert (y = i) as -> by (apply Hall; right; left).
    inversion Hnd as [|? ? Hni _]; subst. exfalso. apply Hni. left.
Qed.

Lemma positions_none (k : nat) (columns : list str) (name : str) :
  name ∉ columns -> positions_from k columns name = [].
Proof.
  revert k. induction columns as [|c columns IH]; intros k Hn; [reflexivity|]. simpl.
  apply not_elem_of_cons in Hn as [Hc Hn].
  rewrite decide_False by congruence. apply IH, Hn.
Qed.

(** Which of the two names are missing. *)
Lemma missing_time_lux (columns : list str) :
  filter (fun name => Str.of_string name ∉ columns) ["time"; "lux"] = [] <->
  Str.of_string "time" ∈ columns /\ Str.of_string "lux" ∈ columns.
Proof.
  rewrite !filter_cons, filter_nil.
  destruct (decide (Str.of_string "time" ∉ columns)) as [Ht|Ht];
    destruct (decide (Str.of_string "lux" ∉ columns)) as [Hl|Hl];
    split; try discriminate; try tauto.
  intros _. split; [destruct (decide (Str.of_string "time" ∈ columns)); tauto
                   | destruct (decide (Str.of_string "lux" ∈ columns)); tauto].
Qed.

(** X11: when, after [strip] and [lower], one column is named [time] and
    one is named [lux], wherever they stand and whatever stands beside
    them, the loader returns a new frame of these two columns, [time]
    first, with the rows, their order and their labels as they were; the
    caller's frame keeps its cells and has the rewritten header. *)
Theorem load_daylight_data_selects (lower_other : str -> str) (df : RawFrame)
    (i j : nat) :
  let columns := normalized lower_other (raw_columns df) in
  columns !! i = Some (Str.of_string "time") ->
  (forall i', columns !! i' = Some (Str.of_string "time") -> i' = i) ->
  columns !! j = Some (Str.of_string "lux") ->
  (forall j', columns !! j' = Some (Str.of_string "lux") -> j' = j) ->
  load_daylight_data lower_other df
  = ({| raw_columns := columns; raw_rows := raw_rows df |},
     Ok {| raw_columns := [Str.of_string "time"; Str.of_string "lux"];
           raw_rows := (fun lr => (lr.1, [default NaN (lr.2 !! i); default NaN (lr.2 !! j)]))
                         <$> raw_rows df |}).
Proof.
  intros columns Hi Hiu Hj Hju.
  unfold load_daylight_data, frame_getitem_list, set_columns. cbn [raw_columns raw_rows].
  fold columns. f_equal.
  rewrite decide_True.
  2:{ apply missing_time_lux. split; eapply list_elem_of_lookup_2; eassumption. }
  cbn [mbind list_bind].
  rewrite (positions_unique columns _ i Hi Hiu), (positions_unique columns _ j Hj Hju).
  reflexivity.
Qed.

Lemma load_daylight_data_selects_witness :
  load_daylight_data lower_unused csv_upload
  = ({| raw_columns := [Str.of_string "lux"; Str.of_string "room"; Str.of_string "time"];
        raw_rows := raw_rows csv_upload |},
     Ok csv_loaded).
Proof.
  apply (load_daylight_data_selects lower_unused csv_upload 2 0).
  - reflexivity.
  - intros [|[|[|i']]] H; vm_compute in H; congruence.
  - reflexivity.
  - intros [|[|[|j']]] H; vm_compute in H; congruence.
Defined.

(** X12: the loader succeeds exactly when the rewritten header has a
    [time] and a [lux]; otherwise it raises a [KeyError]. Either way the
    header of the caller's frame is rewritten, and nothing else of it. *)
Theorem load_daylight_data_missing (lower_other : str -> str) (df : RawFrame) :
  (is_ok (load_daylight_data lower_other df).2 <->
   Str.of_string "time" ∈ normalized lower_other (raw_columns df) /\
   Str.of_string "lux" ∈ normalized lower_other (raw_columns df)) /\
  (is_ok (load_daylight_data lower_other df).2 \/
   exists msg, (load_daylight_data lower_other df).2 = Raise (Exn KeyError msg)) /\
  (load_daylight_data lower_other df).1
  = {| raw_columns := normalized lower_other (raw_columns df); raw_rows := raw_rows df |}.
Proof.
  set (columns := normalized lower_other (raw_columns df)).
  unfold load_daylight_data, frame_getitem_list, set_columns. cbn [raw_columns raw_rows fst snd].
  fold columns.
  pose proof (missing_time_lux columns) as Hmiss.
  destruct (decide (filter _ _ = [])) as [E|E].
  - split; [|split; [left; eexists; reflexivity | reflexivity]].
    split; [intros _; apply Hmiss, E | intros _; eexists; reflexivity].
  - split; [|split; [right; case_decide; eexists; reflexivity | reflexivity]].
    split.
    + intros [out Hout]. case_decide; discriminate.
    + intros H. exfalso. apply E, Hmiss, H.
Qed.

(** X13: whatever the header, a frame that the loader returns has columns
    named [time] and [lux] only, the [time] columns before the [lux]
    columns, a cell for each of them in every row, and the labels of the
    rows in their order. *)
Theorem load_daylight_data_shape (lower_other : str -> str) (df out : RawFrame) :
  (load_daylight_data lower_other df).2 = Ok out ->
  (exists n m, (0 < n)%nat /\ (0 < m)%nat /\
     raw_columns out = replicate n (Str.of_string "time") ++ replicate m (Str.of_string "lux")) /\
  (raw_rows out).*1 = (raw_rows df).*1 /\
  Forall (fun lr => length lr.2 = length (raw_columns out)) (raw_rows out).
Proof.
  unfold load_daylight_data, frame_getitem_list, set_columns. cbn [raw_columns raw_rows snd].
  set (columns := normalized lower_other (raw_columns df)).
  intros H. case_decide as E; [|case_decide; discriminate].
  apply missing_time_lux in E as [Ht Hl].
  injection H as <-. cbn [raw_columns raw_rows mbind list_bind].
  rewrite app_nil_r.
  split; [|split].
  - exists (length (positions_from 0 columns (Str.of_string "time"))),
           (length (positions_from 0 columns (Str.of_string "lux"))).
    split; [|split].
    + apply list_elem_of_lookup_1 in Ht as [i Hi].
      assert (Hin : i ∈ positions_from 0 columns (Str.of_string "time"))
        by (apply positions_from_spec; rewrite Nat.sub_0_r; split; [lia | exact Hi]).
      destruct (positions_from 0 columns (Str.of_string "time")); [inversion Hin | simpl; lia].
    + apply list_elem_of_lookup_1 in Hl as [i Hi].
      assert (Hin : i ∈ positions_from 0 columns (Str.of_string "lux"))
        by (apply positions_from_spec; rewrite Nat.sub_0_r; split; [lia | exact Hi]).
      destruct (positions_from 0 columns (Str.of_string "lux")); [inversion Hin | simpl; lia].
    + rewrite fmap_app, <- !list_fmap_compose. f_equal.
      * generalize (positions_from 0 columns (Str.of_string "time")).
        intros l. induction l; simpl; [reflexivity | f_equal; assumption].
      * generalize (positions_from 0 columns (Str.of_string "lux")).
        intros l. induction l; simpl; [reflexivity | f_equal; assumption].
  - rewrite <- list_fmap_compose. apply list_fmap_ext. intros ? lr _. reflexivity.
  - apply Forall_fmap, Forall_forall. intros lr _. simpl. rewrite !length_fmap. reflexivity.
Qed.

Lemma load_daylight_data_shape_witness :
  (raw_rows csv_loaded).*1 = (raw_rows csv_upload).*1.
Proof.
  destruct (load_daylight_data_shape lower_unused csv_upload csv_loaded) as (_ & H & _).
  - reflexivity.
  - exact H.
Defined.

(** ** The schedule formatter *)

Lemma split_cons (sep : N) (s : str) : exists piece pieces, Str.split sep s = piece :: pieces.
Proof.
  destruct s as [|c s]; simpl; [eauto|].
  destruct (c =? sep)%N; [eauto|]. destruct (Str.split sep s); eauto.
Qed.

Lemma split_app (sep : N) (a b : str) :
  Str.split sep (a ++ sep :: b) = Str.split sep a ++ Str.split sep b.
Proof.
  induction a as [|c a IH]; simpl.
  - rewrite N.eqb_refl. reflexivity.
  - destruct (c =? sep)%N; [rewrite IH; reflexivity|].
    rewrite IH. destruct (split_cons sep a) as (p & ps & ->). reflexivity.
Qed.

Lemma split_none (sep : N) (s : str) : sep ∉ s -> Str.split sep s = [s].
Proof.
  induction s as [|c s IH]; intros Hs; [reflexivity|]. simpl.
  apply not_elem_of_cons in Hs as [Hc Hs].
  destruct (N.eqb_spec c sep) as [->|_]; [done|]. rewrite IH by exact Hs. reflexivity.
Qed.

Lemma first_piece_split (sep : N) (a b : str) :
  sep ∉ a -> Str.first_piece (Str.split sep (a ++ sep :: b)) = a.
Proof. intros Ha. rewrite split_app, split_none by exact Ha. reflexivity. Qed.

Lemma append_each {A B} (f : A -> B) (l : list A) (acc : list B) :
  foldl (fun acc x => acc ++ [f x]) acc l = acc ++ (f <$> l).
Proof.
  revert acc. induction l as [|x l IH]; intros acc; simpl.
  - rewrite app_nil_r. reflexivity.
  - rewrite IH, <- app_assoc. reflexivity.
Qed.

Lemma format_schedule_map (text : str) :
  format_schedule text = concat (format_line <$> Str.split line_feed text).
Proof. unfold format_schedule. rewrite (append_each format_line). reflexivity. Qed.

Lemma lstrip_app (b r : str) (c : N) :
  Str.isspace c = false -> Str.lstrip (b ++ c :: r) = Str.lstrip b ++ c :: r.
Proof.
  intros Hc. induction b as [|x b IH]; simpl; [rewrite Hc; reflexivity|].
  destruct (Str.isspace x); [exact IH | reflexivity].
Qed.

Lemma rstrip_app (a r : str) (c : N) :
  Str.isspace c = false -> Str.rstrip (a ++ c :: r) = a ++ c :: Str.rstrip r.
Proof.
  intros Hc. induction a as [|x a IH]; simpl.
  - destruct (Str.rstrip r); [rewrite Hc|]; reflexivity.
  - rewrite IH. destruct a; reflexivity.
Qed.

(** A text is its [rstrip] and the white space after it. *)
Lemma rstrip_spaces (s : str) :
  exists w, s = Str.rstrip s ++ w /\ Forall (fun c => Str.isspace c = true) w.
Proof.
  induction s as [|c s (w & Hs & Hw)]; simpl; [exists []; split; [reflexivity|constructor]|].
  destruct (Str.rstrip s) as [|y r] eqn:Hr.
  - simpl in Hs. subst w. destruct (Str.isspace c) eqn:Hc.
    + exists (c :: s). split; [reflexivity|]. constructor; assumption.
    + exists s. split; [reflexivity | assumption].
  - exists w. split; [rewrite Hs at 1; reflexivity | exact Hw].
Qed.

Lemma lstrip_spaces (w s : str) :
  Forall (fun c => Str.isspace c = true) w -> Str.lstrip (w ++ s) = Str.lstrip s.
Proof. induction 1 as [|c w Hc _ IH]; simpl; [reflexivity|]. rewrite Hc. exact IH. Qed.

Lemma rstrip_all_spaces (w : str) :
  Forall (fun c => Str.isspace c = true) w -> Str.rstrip w = [].
Proof. induction 1 as [|c w Hc _ IH]; simpl; [reflexivity|]. rewrite IH, Hc. reflexivity. Qed.

Lemma lstrip_suffix (s : str) : exists w, s = w ++ Str.lstrip s /\
  Forall (fun c => Str.isspace c = true) w.
Proof.
  induction s as [|c s (w & Hs & Hw)]; simpl; [exists []; split; [reflexivity|constructor]|].
  destruct (Str.isspace c) eqn:Hc.
  - exists (c :: w). split; [simpl; f_equal; exact Hs | constructor; assumption].
  - exists []. split; [reflexivity | constructor].
Qed.

Lemma lstrip_head (s : str) :
  match Str.lstrip s with
  | [] => True
  | c :: _ => Str.isspace c = false
  end.
Proof.
  induction s as [|c s IH]; simpl; [exact I|].
  destruct (Str.isspace c) eqn:Hc; [exact IH | exact Hc].
Qed.

Lemma lstrip_idem (s : str) : Str.lstrip (Str.lstrip s) = Str.lstrip s.
Proof.
  pose proof (lstrip_head s) as H. destruct (Str.lstrip s) as [|c r]; [reflexivity|].
  simpl. rewrite H. reflexivity.
Qed.

Lemma rstrip_idem (s : str) : Str.rstrip (Str.rstrip s) = Str.rstrip s.
Proof.
  induction s as [|c s IH]; simpl; [reflexivity|].
  destruct (Str.rstrip s) as [|y r] eqn:Hr.
  - destruct (Str.isspace c) eqn:Hc; simpl; [reflexivity|]. rewrite Hc. reflexivity.
  - change (Str.rstrip (c :: y :: r)) with
      (match Str.rstrip (y :: r) with [] => if Str.isspace c then [] else [c] | r' => c :: r' end).
    rewrite IH. reflexivity.
Qed.

(** Stripping the two ends in either order gives the same. *)
Lemma strip_rstrip (s : str) : Str.strip (Str.rstrip s) = Str.strip s.
Proof.
  unfold Str.strip.
  destruct (lstrip_suffix s) as (w & Hs & Hw).
  pose proof (lstrip_head s) as Hhead.
  destruct (Str.lstrip s) as [|c x] eqn:Hl.
  - rewrite app_nil_r in Hs. subst w.
    rewrite (rstrip_all_spaces s Hw). reflexivity.
  - rewrite Hs at 1. rewrite (rstrip_app w x c Hhead), (lstrip_spaces w _ Hw).
    assert (Hcx : Str.rstrip (c :: x) = c :: Str.rstrip x)
      by apply (rstrip_app [] x c Hhead).
    simpl Str.lstrip. rewrite Hhead. rewrite <- Hcx. apply rstrip_idem.
Qed.

Lemma lstrip_not_elem (c : N) (s : str) : c ∉ s -> c ∉ Str.lstrip s.
Proof.
  intros Hc Hin. apply Hc. destruct (lstrip_suffix s) as (w & Hs & _).
  rewrite Hs. apply elem_of_app. right. exact Hin.
Qed.

Lemma dash_not_space : Str.isspace dash = false.
Proof. reflexivity. Qed.

(** The parts that the formatter takes from a line [h:b-r]. *)
Lemma format_line_parts (h b r : str) :
  colon ∉ h -> Str.strip h = h -> dash ∉ b ->
  format_line (h ++ colon :: b ++ dash :: r)
  = formatted_line h (Str.strip b)
      (if decide (Str.strip b = Str.lstrip b) then Str.strip r else dash :: Str.rstrip r).
Proof.
  intros Hh Hstrip Hb. unfold format_line.
  rewrite decide_True.
  2:{ split; rewrite elem_of_app, !elem_of_cons, elem_of_app; [auto|].
      right. right. right. rewrite elem_of_cons. auto. }
  rewrite (first_piece_split colon h _ Hh), Hstrip.
  cbv zeta.
  replace (drop (length h + 1) (h ++ colon :: b ++ dash :: r)) with (b ++ dash :: r).
  2:{ rewrite Nat.add_1_r. change (h ++ colon :: b ++ dash :: r) with (h ++ [colon] ++ (b ++ dash :: r)).
      rewrite app_assoc.
      rewrite <- (drop_app_length (h ++ [colon]) (b ++ dash :: r)) at 1.
      rewrite length_app, Nat.add_1_r. reflexivity. }
  assert (Hrest : Str.strip (b ++ dash :: r) = Str.lstrip b ++ dash :: Str.rstrip r).
  { unfold Str.strip. rewrite (lstrip_app b r dash dash_not_space).
    apply rstrip_app, dash_not_space. }
  rewrite Hrest.
  rewrite (first_piece_split dash _ _ (lstrip_not_elem dash b Hb)).
  assert (Hbp : Str.strip (Str.lstrip b) = Str.strip b)
    by (unfold Str.strip; rewrite lstrip_idem; reflexivity).
  rewrite Hbp. f_equal.
  destruct (rstrip_spaces (Str.lstrip b)) as (w & Hw & Hspaces).
  fold (Str.strip b) in Hw.
  rewrite Hw at 1. rewrite <- app_assoc, Nat.add_1_r.
  replace (drop (S (length (Str.strip b))) (Str.strip b ++ w ++ dash :: Str.rstrip r))
    with (drop 1 (w ++ dash :: Str.rstrip r)).
  2:{ change (S (length (Str.strip b))) with (1 + length (Str.strip b))%nat.
      rewrite Nat.add_comm, <- drop_drop, drop_app_length. reflexivity. }
  destruct w as [|x w].
  - rewrite app_nil_r in Hw. rewrite decide_True by (symmetry; exact Hw).
    simpl. rewrite drop_0. apply strip_rstrip.
  - rewrite decide_False.
    2:{ intros E. rewrite E in Hw. apply (f_equal length) in Hw.
        rewrite length_app in Hw. simpl in Hw. lia. }
    simpl. rewrite drop_0. unfold Str.strip.
    inversion Hspaces as [|? ? _ Hw']; subst.
    rewrite (lstrip_spaces w _ Hw').
    change (Str.lstrip (dash :: Str.rstrip r)) with (dash :: Str.rstrip r).
    pose proof (rstrip_app [] (Str.rstrip r) dash dash_not_space) as E.
    simpl app in E. rewrite E, rstrip_idem. reflexivity.
Qed.

(** X14: the formatter works line by line: the HTML of two texts joined by
    a line feed is the HTML of the first followed by that of the second;
    and a line without a colon or without a dash, the empty line among
    them, goes into the italic paragraph as it is, spaces and markup
    included. *)
Theorem format_schedule_line_by_line :
  (forall a b : str,
     format_schedule (a ++ line_feed :: b) = format_schedule a ++ format_schedule b) /\
  (forall line : str,
     line_feed ∉ line -> colon ∉ line \/ dash ∉ line ->
     format_schedule line = plain_line line) /\
  format_schedule [] = plain_line [].
Proof.
  split; [|split].
  - intros a b. rewrite !format_schedule_map, split_app, fmap_app, concat_app. reflexivity.
  - intros line Hnl Hno. rewrite format_schedule_map, split_none by exact Hnl.
    simpl. rewrite app_nil_r. unfold format_line.
    rewrite decide_False by tauto. reflexivity.
  - reflexivity.
Qed.

(** X15: from a line [h:b-r], where [h] has no colon and no space at its
    ends and [b] has no dash, the formatter shows [h] as the hour and [b]
    stripped as the brightness; the reason is [r] stripped when no space
    stands between the brightness and the dash, and otherwise, as in the
    format [Hour: Brightness % - Reason] that the prompt asks for, it is
    [r] with the dash still in front. *)
Theorem format_schedule_parts (h b r : str) :
  line_feed ∉ h ++ colon :: b ++ dash :: r ->
  colon ∉ h -> Str.strip h = h -> dash ∉ b ->
  format_schedule (h ++ colon :: b ++ dash :: r)
  = formatted_line h (Str.strip b)
      (if decide (Str.strip b = Str.lstrip b) then Str.strip r else dash :: Str.rstrip r).
Proof.
  intros Hnl Hh Hstrip Hb.
  rewrite format_schedule_map, split_none by exact Hnl.
  simpl. rewrite app_nil_r. apply format_line_parts; assumption.
Qed.

Lemma format_schedule_parts_witness :
  format_schedule (Str.of_string "9 AM: 80% - Low daylight")
  = formatted_line (Str.of_string "9 AM") (Str.of_string "80%")
      (Str.of_string "- Low daylight").
Proof.
  apply (format_schedule_parts (Str.of_string "9 AM") (Str.of_string " 80% ")
           (Str.of_string " Low daylight"));
    apply (bool_decide_unpack _); vm_compute; reflexivity.
Defined.

(** ** The further properties on examples *)

(** A table without [lux] never reaches the network. *)
Example call_groq_scheduler_times_only :
  call_groq_scheduler no_other network_down times_only "gsk_example"
  = Raise (Exn KeyError "'lux'").
Proof. vm_compute. reflexivity. Qed.

(** Two columns that both come out as [time] are both returned. *)
Example load_daylight_data_repeated_name :
  (load_daylight_data lower_unused
     {| raw_columns := [Str.of_string "Time"; Str.of_string "lux"; Str.of_string " time"];
        raw_rows := [(0%nat, [CStr "09:00"; CNum (PyInt 200); CStr "9 am"])] |}).2
  = Ok {| raw_columns := [Str.of_string "time"; Str.of_string "time"; Str.of_string "lux"];
          raw_rows := [(0%nat, [CStr "09:00"; CStr "9 am"; CNum (PyInt 200)])] |}.
Proof. vm_compute. reflexivity. Qed.

(** A time with a colon in it is cut at its first colon. *)
Example format_schedule_colon_in_time :
  format_schedule (Str.of_string "09:00: 80%-Low daylight")
  = formatted_line (Str.of_string "09") (Str.of_string "00: 80%")
      (Str.of_string "Low daylight").
Proof. vm_compute. reflexivity. Qed.

(** The warning of the narrator has no colon and goes into the italic
    paragraph, one paragraph per line. *)
Example format_schedule_two_plain_lines :
  format_schedule (Str.of_string "no schedule" ++ line_feed :: Str.of_string "today")
  = plain_line (Str.of_string "no schedule") ++ plain_line (Str.of_string "today").
Proof. vm_compute. reflexivity. Qed.

(** Decimal digits beyond ASCII: [\d] takes them, the classes [[0-1]],
    [[0-3]] and [[0-5]] do not. *)
Example strptime_HM_unicode_digits :
  strptime_HM "٩:٥" = Some (HourMinute 9 5) /\
  strptime_HM "1２:3０" = Some (HourMinute 12 30) /\
  strptime_HM "9:5٥" = Some (HourMinute 9 55) /\
  strptime_HM "𝟐:𝟓" = Some (HourMinute 2 5) /\
  strptime_HM "１２:３０" = None /\
  strptime_HM "2٣:5٩" = None /\
  strptime_HM "9:٥٥" = None /\
  strptime_HM "Ⅷ:00" = None.
Proof. repeat split; vm_compute; reflexivity. Qed.

(** The row timed in Arabic-Indic digits is parsed, kept and matched. *)
Example nearest_of_arabic_indic_schedule :
  to_datetime_time (CStr "٩:٥") = CTime (HourMinute 9 5) /\
  (get_nearest_time_brightness five_past_nine 0%nat {[0%nat := arabic_indic_schedule]}).1
  = Ok (VCell (CStr "٩:٥"), VCell (CNum (PyInt 80))) /\
  (get_nearest_time_brightness five_past_nine 0%nat
     (enrich 0%nat {[0%nat := arabic_indic_readings]}).2).1
  = Ok (VCell (CStr "٩:٥"), VCell (CNum (PyInt 80))).
Proof. repeat split; vm_compute; reflexivity. Qed.
